(** * falcon-sentry: the Sentry client wrapper, its error handler and its
      request middleware (src/falcon_sentry/sentry.py)

    A shallow embedding of [Sentry] and [SentryMiddleware].  Python
    objects that are mutated in place (the Sentry object, the raven client
    it owns, the response) live in one explicit [World]; methods are
    computations in a state-and-exception monad over that world. *)

From stdpp Require Import base gmap strings list fin_maps.
From Stdlib Require Import ZArith.

Open Scope string_scope.
Open Scope list_scope.
Open Scope Z_scope.

(** ** Python values *)

#[warnings="-register-all"]
Inductive pyval : Type :=
  | VNone
  | VBool (b : bool)
  | VInt (z : Z)
  | VStr (s : string)
  | VDict (d : gmap string pyval).

(** [d.update(data)]: the keys of [data] win. *)
Definition dict_update (d data : gmap string pyval) : gmap string pyval :=
  data ∪ d.

(** [x or default] on an optional integer: [None] and [0] are falsy. *)
Definition int_or (x : option Z) (default : Z) : Z :=
  match x with
  | Some z => if Z.eqb z 0 then default else z
  | None => default
  end.

(** Truthiness of an event id ([None] or a string). *)
Definition event_id_truthy (v : option string) : bool :=
  match v with
  | Some s => negb (String.eqb s "")
  | None => false
  end.

(** An instance attribute that [__init__] may or may not have assigned. *)
Inductive attr (A : Type) : Type :=
  | AttrUnset
  | AttrSet (a : A).
Arguments AttrUnset {A}.
Arguments AttrSet {A} a.

(** ** Exceptions *)

Inductive pyclass : Type :=
  | BaseException
  | Exception_
  | AttributeError
  | TypeError
  | HTTPStatus
  | HTTPError
  | HTTPInternalServerError
  | UserClass (name : string).

#[global] Instance pyclass_eq_dec : EqDecision pyclass.
Proof. solve_decision. Defined.

(** An exception object.  [exc_oid] is the identity of the object,
    [exc_mro] the classes of its type, most specific first; [exc_code],
    [exc_title], [exc_description] and [exc_to_dict] are the attributes and
    the [to_dict()] of falcon's HTTP errors, [exc_str] is [str(ex)]. *)
Record exc : Type := mk_exc {
  exc_oid : nat;
  exc_mro : list pyclass;
  exc_code : option Z;
  exc_title : option string;
  exc_description : option string;
  exc_to_dict : gmap string pyval;
  exc_str : string
}.

Definition isinstance (ex : exc) (c : pyclass) : bool :=
  bool_decide (c ∈ exc_mro ex).

Inductive result (A : Type) : Type :=
  | Ok (a : A)
  | Raise (e : exc).
Arguments Ok {A} a.
Arguments Raise {A} e.

(** ** Requests, responses and the raven client *)

(** The part of falcon's request object that the middleware reads. *)
Record Request : Type := mk_Request {
  protocol : string;
  host : string;
  path : string;
  query_string : string;
  params : gmap string pyval;
  headers : gmap string pyval;
  uri_template : option string;
  method : string;
  env : gmap string pyval
}.

(** What [resp.headers] gives on the response object that reaches
    [process_response]: no such attribute (falcon 1.x, whose [Response]
    keeps its headers in [_headers] only), a copy of the header mapping
    (falcon 2 and later) or the header mapping itself. *)
Inductive headers_attr : Type :=
  | HeadersAbsent
  | HeadersCopy
  | HeadersLive.

(** Modelled from the spec: falcon's [Response] is an external
    collaborator.  Section 6 asks for "a response object supporting header
    assignment", which is [HeadersLive]; the other two kinds are what
    falcon's own class does.  [resp_headers] is the header mapping of the
    response. *)
Record Response : Type := mk_Response {
  resp_headers : gmap string pyval;
  resp_headers_attr : headers_attr
}.

(** A loader is a callable [(request) -> value] that may raise. *)
Definition loader : Type := Request -> result pyval.

(** The calls that reach the raven client, in the order they are made. *)
Inductive RavenCall : Type :=
  | CallCaptureException (level : string) (extra : gmap string pyval)
  | CallCaptureMessage (message : string)
  | CallHttpContext (data : gmap string pyval)
  | CallUserContext (data : pyval)
  | CallContextClear
  | CallLoggerException (message : string).

(** Modelled from the spec: raven's [Client] is an external dependency (the
    reporting transport of section 6).  Its state is the context store
    ([client.context], a mapping with the keys [request] and [user]), the
    log of the calls it received, and the event id its transport hands
    back for a capture call ([None] when delivery fails). *)
Record RavenClient : Type := mk_RavenClient {
  context : gmap string pyval;
  calls : list RavenCall;
  transport : RavenCall -> option string
}.

(** The attributes of a [Sentry] object.  [last_event_id] is assigned by
    [captureException], [captureMessage] and [clear_context] only;
    [logging_handler] records the handler that [configure_logging]
    installed (level and exclusions). *)
Record SentryObj : Type := mk_SentryObj {
  dsn : option string;
  client : RavenClient;
  logging_handler : option (Z * option (list string));
  body_context_loader : option loader;
  user_context_loader : option loader;
  last_event_id : attr (option string)
}.

(** The attributes of a [SentryMiddleware] object other than [client],
    which refers to the one Sentry object of the world. *)
Record MiddlewareObj : Type := mk_MiddlewareObj {
  mw_body_context_loader : option loader;
  mw_user_context_loader : option loader
}.

(** The mutable objects a request touches, and the allocator of object
    identities. *)
Record World : Type := mk_World {
  sentry : SentryObj;
  response : Response;
  next_oid : nat
}.

Definition set_context (f : gmap string pyval -> gmap string pyval)
    (c : RavenClient) : RavenClient :=
  mk_RavenClient (f (context c)) (calls c) (transport c).

Definition log_call (k : RavenCall) (c : RavenClient) : RavenClient :=
  mk_RavenClient (context c) (calls c ++ [k]) (transport c).

Definition set_client (f : RavenClient -> RavenClient) (s : SentryObj) : SentryObj :=
  mk_SentryObj (dsn s) (f (client s)) (logging_handler s)
    (body_context_loader s) (user_context_loader s) (last_event_id s).

Definition set_last_event_id (v : option string) (s : SentryObj) : SentryObj :=
  mk_SentryObj (dsn s) (client s) (logging_handler s)
    (body_context_loader s) (user_context_loader s) (AttrSet v).

Definition set_sentry (f : SentryObj -> SentryObj) (w : World) : World :=
  mk_World (f (sentry w)) (response w) (next_oid w).

Definition set_response (f : Response -> Response) (w : World) : World :=
  mk_World (sentry w) (f (response w)) (next_oid w).

(** ** The state-and-exception monad *)

Definition M (A : Type) : Type := World -> result A * World.

Definition ret {A} (a : A) : M A := fun w => (Ok a, w).

Definition bind {A B} (m : M A) (k : A -> M B) : M B :=
  fun w =>
    match m w with
    | (Ok a, w') => k a w'
    | (Raise e, w') => (Raise e, w')
    end.

Definition raise {A} (e : exc) : M A := fun w => (Raise e, w).

Definition gets {A} (f : World -> A) : M A := fun w => (Ok (f w), w).

Definition modify (f : World -> World) : M unit := fun w => (Ok tt, f w).

Definition lift_result {A} (r : result A) : M A := fun w => (r, w).

#[global] Instance M_ret : MRet M := @ret.
#[global] Instance M_bind : MBind M := fun A B k m => bind m k.

(** [try: body  except Exception as ex: handler(ex)]: only instances of
    [Exception] are caught, anything else propagates. *)
Definition try_except_Exception {A} (body : M A) (handler : exc -> M A) : M A :=
  fun w =>
    match body w with
    | (Ok a, w') => (Ok a, w')
    | (Raise e, w') =>
        if isinstance e Exception_ then handler e w' else (Raise e, w')
    end.

(** Constructing an exception object takes a fresh identity. *)
Definition new_exc (mro : list pyclass) (code : option Z)
    (title description : option string) (to_dict : gmap string pyval)
    (str : string) : M exc :=
  fun w =>
    (Ok (mk_exc (next_oid w) mro code title description to_dict str),
     mk_World (sentry w) (response w) (S (next_oid w))).

(** The [AttributeError] of a failed attribute access. *)
Definition raise_AttributeError {A} (message : string) : M A :=
  e ← new_exc [AttributeError; Exception_; BaseException]
        None None None ∅ message;
  raise e.

(** ** raven's client *)

Module Client.

(** Modelled from the spec: the methods of raven's [Client] that
    sentry.py calls.  Each one records the call; [http_context] and
    [user_context] set their key of the context store, [context.clear()]
    empties the store, the capture methods return the event id of the
    transport and never raise (section 7, transport failure). *)
Definition call (k : RavenCall) : M unit :=
  modify (set_sentry (set_client (log_call k))).

Definition captureException (level : string) (extra : gmap string pyval)
    : M (option string) :=
  call (CallCaptureException level extra);;
  gets (fun w => transport (client (sentry w)) (CallCaptureException level extra)).

Definition captureMessage (message : string) : M (option string) :=
  call (CallCaptureMessage message);;
  gets (fun w => transport (client (sentry w)) (CallCaptureMessage message)).

Definition http_context (data : gmap string pyval) : M unit :=
  call (CallHttpContext data);;
  modify (set_sentry (set_client (set_context <["request" := VDict data]>))).

Definition user_context (data : pyval) : M unit :=
  call (CallUserContext data);;
  modify (set_sentry (set_client (set_context <["user" := data]>))).

Definition context_get : M (gmap string pyval) :=
  gets (fun w => context (client (sentry w))).

Definition context_clear : M unit :=
  call CallContextClear;;
  modify (set_sentry (set_client (set_context (fun _ => ∅)))).

Definition logger_exception (message : string) : M unit :=
  call (CallLoggerException message).

(** Modelled from the spec: raven.utils.wsgi.get_environ, the
    "sanitized environment snapshot" of section 4.3; it keeps the
    three WSGI keys that identify the peer and the server. *)
Definition get_environ (environ : gmap string pyval) : gmap string pyval :=
  filter (fun kv => kv.1 ∈ ["REMOTE_ADDR"; "SERVER_NAME"; "SERVER_PORT"]) environ.

End Client.

(** ** class Sentry *)

Module Sentry.

(** What a caller may pass as [client]: nothing, a raven [Client], or
    some other object (with its truthiness). *)
Inductive client_arg : Type :=
  | NoClient
  | ClientInstance (c : RavenClient)
  | OtherObject (truthy : bool).

(** The two callables of raven that [__init__] runs and that may raise:
    the client class, called as [client_cls(dsn=dsn, **options)], and
    [setup_logging(SentryHandler(client, level=level), **kwargs)], given
    here by the client, the level and the [exclude] keyword. *)
Definition client_class : Type :=
  option string -> gmap string pyval -> result RavenClient.
Definition logging_setup : Type :=
  RavenClient -> Z -> option (list string) -> result unit.

Definition configure_logging (setup_logging : logging_setup) (level : Z)
    (logging_exclusions : option (list string)) (s : SentryObj) : result SentryObj :=
  let exlcude := logging_exclusions in
  let kwargs :=
    match exlcude with
    | Some (x :: l) => Some (x :: l)
    | _ => None
    end in
  match setup_logging (client s) level kwargs with
  | Raise e => Raise e
  | Ok _ =>
      Ok (mk_SentryObj (dsn s) (client s) (Some (level, kwargs))
            (body_context_loader s) (user_context_loader s) (last_event_id s))
  end.

(** [Sentry.__init__].  [oid] is the identity a raised [TypeError] gets.
    An exception of [client_cls] or of the logging setup propagates.  No
    branch assigns [last_event_id]. *)
Definition init (setup_logging : logging_setup) (client_ : client_arg)
    (client_cls : client_class)
    (dsn_ : option string) (handle_logging : bool)
    (logging_exclusions : option (list string)) (level : Z)
    (user_context_loader_ body_context_loader_ : option loader)
    (options : gmap string pyval) (oid : nat) : result SentryObj :=
  match client_ with
  | OtherObject true =>
      Raise (mk_exc oid [TypeError; Exception_; BaseException] None None None ∅
               "client should be an instance of Client")
  | _ =>
      match (match client_ with
             | ClientInstance c => Ok c
             | _ => client_cls dsn_ options
             end) with
      | Raise e => Raise e
      | Ok c =>
          let self := mk_SentryObj dsn_ c None None None AttrUnset in
          match (if handle_logging
                 then configure_logging setup_logging level logging_exclusions self
                 else Ok self) with
          | Raise e => Raise e
          | Ok self =>
              let self := mk_SentryObj (dsn self) (client self) (logging_handler self)
                            body_context_loader_ (user_context_loader self)
                            (last_event_id self) in
              let self := mk_SentryObj (dsn self) (client self) (logging_handler self)
                            (body_context_loader self) user_context_loader_
                            (last_event_id self) in
              Ok self
          end
      end
  end.

(** Reading [self.last_event_id]: an [AttributeError] while the
    attribute has not been assigned. *)
Definition get_last_event_id : M (option string) :=
  a ← gets (fun w => last_event_id (sentry w));
  match a with
  | AttrSet v => ret v
  | AttrUnset =>
      raise_AttributeError "'Sentry' object has no attribute 'last_event_id'"
  end.

(** falcon.HTTPInternalServerError(title=..., description=...): an
    [HTTPError] without a code. *)
Definition HTTPInternalServerError_new (title description : string) : M exc :=
  new_exc [HTTPInternalServerError; HTTPError; Exception_; BaseException]
    None (Some title) (Some description)
    (<["title" := VStr title]> (<["description" := VStr description]> ∅)) "".

(** The closure that [get_error_handler(only_500)] returns.  Its [resp]
    argument, which it never uses, is the response of the world. *)
Definition error_handler (only_500 : bool) (ex : exc) (req : Request)
    (params_ : gmap string pyval) : M unit :=
  let raise_exc := ex in
  if isinstance ex HTTPStatus then raise raise_exc
  else
    '(level, extra, raise_exc) ←
      (if isinstance ex HTTPError then
         let code := int_or (exc_code ex) 500 in
         if only_500 && (code <? 500) then raise raise_exc
         else
           let level := if code <? 500 then "errors" else "fatal" in
           let extra := exc_to_dict ex in
           let extra := dict_update extra params_ in
           ret (level, extra, raise_exc)
       else
         let level := "fatal" in
         let extra := params_ in
         raise_exc ← HTTPInternalServerError_new "Unknown Error" (exc_str ex);
         ret (level, extra, raise_exc));
    Client.captureException level extra;;
    raise raise_exc.

Definition get_error_handler (only_500 : bool)
    : exc -> Request -> gmap string pyval -> M unit :=
  error_handler only_500.

Definition user_context (data : pyval) : M unit :=
  Client.user_context data.

(** [req_context = context.get('request', {})], then
    [req_context.update(data)]: a stored value that is not a mapping has
    no [update]. *)
Definition http_context (data : gmap string pyval) : M unit :=
  context_ ← Client.context_get;
  req_context ←
    match context_ !! "request" with
    | None => ret ∅
    | Some (VDict d) => ret d
    | Some _ => raise_AttributeError "object has no attribute 'update'"
    end;
  let req_context := dict_update req_context data in
  Client.http_context req_context.

Definition clear_context : M unit :=
  Client.context_clear;;
  modify (set_sentry (set_last_event_id None)).

Definition captureException (level : string) (extra : gmap string pyval)
    : M (option string) :=
  result_ ← Client.captureException level extra;
  modify (set_sentry (set_last_event_id result_));;
  ret result_.

Definition captureMessage (message : string) : M (option string) :=
  result_ ← Client.captureMessage message;
  modify (set_sentry (set_last_event_id result_));;
  ret result_.

(** [to_unicode(ex)] is the text of the exception. *)
Definition _log_exception (ex : exc) : M unit :=
  Client.logger_exception (exc_str ex).

End Sentry.

(** ** class SentryMiddleware *)

Module SentryMiddleware.

(** [SentryMiddleware.__init__(self, client, user_context_loader=None,
    body_context_loader=None)], with its parameters in the order of the
    signature. *)
Definition init (user_context_loader_ body_context_loader_ : option loader)
    : MiddlewareObj :=
  {| mw_body_context_loader := body_context_loader_;
     mw_user_context_loader := user_context_loader_ |}.

Definition get_request_context (req : Request) : gmap string pyval :=
  list_to_map
    [ ("url", VStr (protocol req ++ "://" ++ host req ++ path req)%string);
      ("query_string", VStr (query_string req));
      ("params", VDict (params req));
      ("headers", VDict (headers req));
      ("route", match uri_template req with Some t => VStr t | None => VNone end);
      ("method", VStr (method req));
      ("env", VDict (Client.get_environ (env req))) ].

Definition process_request (self : MiddlewareObj) (req : Request) : M unit :=
  try_except_Exception
    (let req_context := get_request_context req in
     req_context ←
       match mw_body_context_loader self with
       | Some body_loader =>
           body ← lift_result (body_loader req);
           ret (<["body" := body]> req_context)
       | None => ret req_context
       end;
     Sentry.http_context req_context)
    (fun ex => Sentry._log_exception ex);;
  try_except_Exception
    (match mw_user_context_loader self with
     | Some user_loader =>
         user_context ← lift_result (user_loader req);
         Sentry.user_context user_context
     | None => ret tt
     end)
    (fun ex => Sentry._log_exception ex).

(** The value stored in a header for an event id. *)
Definition header_value (v : option string) : pyval :=
  match v with
  | Some s => VStr s
  | None => VNone
  end.

(** Modelled from the spec: [resp.headers[name] = value] on the response
    of the world.  The attribute access fails on a response without
    [headers], writes into a throw-away copy on one that hands out copies,
    and writes the header otherwise. *)
Definition headers_setitem (name : string) (value : pyval) : M unit :=
  kind ← gets (fun w => resp_headers_attr (response w));
  match kind with
  | HeadersAbsent =>
      raise_AttributeError "'Response' object has no attribute 'headers'"
  | HeadersCopy => ret tt
  | HeadersLive =>
      modify (set_response (fun r =>
        mk_Response (<[name := value]> (resp_headers r)) (resp_headers_attr r)))
  end.

(** The right-hand side of the assignment is evaluated before
    [resp.headers]. *)
Definition process_response (self : MiddlewareObj) (req : Request) : M unit :=
  v ← Sentry.get_last_event_id;
  (if event_id_truthy v then
     v' ← Sentry.get_last_event_id;
     headers_setitem "X-Sentry-ID" (header_value v')
   else ret tt);;
  Sentry.clear_context.

End SentryMiddleware.

(** The [middleware] property of [Sentry]: the arguments are passed by
    position, in this order. *)
Definition Sentry_middleware (self : SentryObj) : MiddlewareObj :=
  SentryMiddleware.init (body_context_loader self) (user_context_loader self).

(** ** Sample objects used to exercise the theorems *)

Module Samples.

Definition raven : RavenClient :=
  mk_RavenClient ∅ [] (fun _ => Some "e1").

Definition request : Request :=
  mk_Request "http" "example.com" "/widgets/42" "" ∅ ∅
    (Some "/widgets/{id}") "GET" ∅.

Definition route_params : gmap string pyval := {[ "id" := VInt 42 ]}.

(** [ValueError("boom")]. *)
Definition boom : exc :=
  mk_exc 0 [UserClass "ValueError"; Exception_; BaseException]
    None None None ∅ "boom".

(** A falcon [HTTPError] with the given code and
    [to_dict() == {"title": "Not Found"}]. *)
Definition http_error (code : option Z) : exc :=
  mk_exc 0 [HTTPError; Exception_; BaseException]
    code (Some "Not Found") None {[ "title" := VStr "Not Found" ]} "".

(** A falcon [HTTPStatus]. *)
Definition redirect : exc :=
  mk_exc 0 [HTTPStatus; Exception_; BaseException] None None None ∅ "".

(** An object whose class derives from both [HTTPStatus] and [HTTPError]. *)
Definition status_and_error : exc :=
  mk_exc 0 [UserClass "Both"; HTTPStatus; HTTPError; Exception_; BaseException]
    (Some 503) None None ∅ "".

(** A body loader and a user loader. *)
Definition B : loader := fun _ => Ok (VStr "the-body").
Definition U : loader := fun _ => Ok (VDict {[ "id" := VInt 1 ]}).

(** A loader that fails with [KeyError('user')]. *)
Definition key_error : exc :=
  mk_exc 7 [UserClass "KeyError"; UserClass "LookupError"; Exception_; BaseException]
    None None None ∅ "'user'".
Definition failing : loader := fun _ => Raise key_error.

(** A world whose Sentry object has [last_event_id] in the given state. *)
Definition world (ctx : gmap string pyval) (a : attr (option string)) : World :=
  mk_World
    (mk_SentryObj None (mk_RavenClient ctx [] (fun _ => Some "e1")) None None None a)
    (mk_Response ∅ HeadersAbsent) 1%nat.

(** The same world with a response of another kind. *)
Definition world_with (kind : headers_attr) (ctx : gmap string pyval)
    (a : attr (option string)) : World :=
  mk_World
    (mk_SentryObj None (mk_RavenClient ctx [] (fun _ => Some "e1")) None None None a)
    (mk_Response ∅ kind) 1%nat.

(** A client class and a logging setup that succeed, and a client class
    that rejects its DSN. *)
Definition client_cls : Sentry.client_class := fun _ _ => Ok raven.
Definition setup_logging : Sentry.logging_setup := fun _ _ _ => Ok tt.
Definition invalid_dsn : exc :=
  mk_exc 3 [UserClass "InvalidDsn"; UserClass "ValueError"; Exception_; BaseException]
    None None None ∅ "Unsupported Sentry DSN scheme".
Definition rejecting_cls : Sentry.client_class := fun _ _ => Raise invalid_dsn.

End Samples.

(** ** Definitions used by the statements *)

Ltac run_monad :=
  unfold mbind, mret, M_bind, M_ret, bind, ret, raise, gets, modify, lift_result;
  simpl.

(** The world after one capture call reached the raven client. *)
Definition captured (level : string) (extra : gmap string pyval) (w : World) : World :=
  set_sentry (set_client (log_call (CallCaptureException level extra))) w.

(** The capture calls in a call log. *)
Definition is_capture (k : RavenCall) : bool :=
  match k with
  | CallCaptureException _ _ | CallCaptureMessage _ => true
  | _ => false
  end.

Definition capture_calls (l : list RavenCall) : list RavenCall :=
  List.filter is_capture l.

(** The generic internal-server error the handler builds for [ex] when the
    allocator stands at [oid]. *)
Definition internal_error_for (ex : exc) (oid : nat) : exc :=
  mk_exc oid [HTTPInternalServerError; HTTPError; Exception_; BaseException]
    None (Some "Unknown Error") (Some (exc_str ex))
    (<["title" := VStr "Unknown Error"]> (<["description" := VStr (exc_str ex)]> ∅)) "".

(** The http sub-mapping of a context store: empty while the store has no
    [request] key, undefined when the key holds something that is not a
    mapping. *)
Definition stored_request (ctx : gmap string pyval) : option (gmap string pyval) :=
  match ctx !! "request" with
  | None => Some ∅
  | Some (VDict d) => Some d
  | Some _ => None
  end.

(** The world after [Sentry.http_context] stored the mapping [d]. *)
Definition with_request (d : gmap string pyval) (w : World) : World :=
  set_sentry (set_client (fun c =>
    set_context <["request" := VDict d]> (log_call (CallHttpContext d) c))) w.

Definition is_clear (k : RavenCall) : bool :=
  match k with
  | CallContextClear => true
  | _ => false
  end.

(** How many times the context store was cleared. *)
Definition clear_count (l : list RavenCall) : nat :=
  length (List.filter is_clear l).

(** The world [Sentry.clear_context] leaves. *)
Definition cleared (w : World) : World :=
  set_sentry (set_last_event_id None)
    (set_sentry (set_client (fun c =>
       set_context (fun _ => ∅) (log_call CallContextClear c))) w).

(** The response after the header logic saw the event id [v] and did not
    raise: the header is written only into a header mapping that is the
    response's own. *)
Definition with_event_header (v : option string) (r : Response) : Response :=
  if event_id_truthy v then
    match resp_headers_attr r with
    | HeadersLive =>
        mk_Response (<["X-Sentry-ID" := SentryMiddleware.header_value v]> (resp_headers r))
          (resp_headers_attr r)
    | _ => r
    end
  else r.

(** Whether the header assignment of the after-request step raises: the
    event id is truthy and the response has no [headers]. *)
Definition header_assignment_fails (v : option string) (r : Response) : bool :=
  event_id_truthy v &&
  match resp_headers_attr r with
  | HeadersAbsent => true
  | _ => false
  end.

(** The steps that precede the after-request step of a request: the
    before-request step and the error handler. *)
Inductive request_step : World -> World -> Prop :=
  | step_process_request (self : MiddlewareObj) (req : Request) (w : World) :
      request_step w (SentryMiddleware.process_request self req w).2
  | step_error_handler (only_500 : bool) (ex : exc) (req : Request)
        (params_ : gmap string pyval) (w : World) :
      request_step w (Sentry.error_handler only_500 ex req params_ w).2.

Arguments SentryMiddleware.get_request_context : simpl never.

(** The two [try] statements of [process_request]. *)
Definition http_block (self : MiddlewareObj) (req : Request) : M unit :=
  try_except_Exception
    (let req_context := SentryMiddleware.get_request_context req in
     req_context ←
       match mw_body_context_loader self with
       | Some body_loader =>
           body ← lift_result (body_loader req);
           ret (<["body" := body]> req_context)
       | None => ret req_context
       end;
     Sentry.http_context req_context)
    (fun ex => Sentry._log_exception ex).

Definition user_block (self : MiddlewareObj) (req : Request) : M unit :=
  try_except_Exception
    (match mw_user_context_loader self with
     | Some user_loader =>
         user_context ← lift_result (user_loader req);
         Sentry.user_context user_context
     | None => ret tt
     end)
    (fun ex => Sentry._log_exception ex).

(** The world after [_log_exception] logged [message]. *)
Definition logged (message : string) (w : World) : World :=
  set_sentry (set_client (log_call (CallLoggerException message))) w.

(** The world after [user_context] stored [u]. *)
Definition with_user (u : pyval) (w : World) : World :=
  set_sentry (set_client (fun c =>
    set_context <["user" := u]> (log_call (CallUserContext u) c))) w.

(** The request context that the first block hands to [http_context], or
    the exception of the body loader. *)
Definition built_request_context (self : MiddlewareObj) (req : Request)
    : result (gmap string pyval) :=
  match mw_body_context_loader self with
  | None => Ok (SentryMiddleware.get_request_context req)
  | Some body_loader =>
      match body_loader req with
      | Ok body => Ok (<["body" := body]> (SentryMiddleware.get_request_context req))
      | Raise e => Raise e
      end
  end.

(** The world after a failed attribute access took an object identity. *)
Definition bumped (w : World) : World :=
  mk_World (sentry w) (response w) (S (next_oid w)).

Definition is_http_context (k : RavenCall) : bool :=
  match k with
  | CallHttpContext _ => true
  | _ => false
  end.

(** The [http_context] calls that reached the raven client. *)
Definition http_context_calls (l : list RavenCall) : list RavenCall :=
  List.filter is_http_context l.

(** The keys of the request context that [get_request_context] builds. *)
Definition request_context_keys : gset string :=
  list_to_set ["url"; "query_string"; "params"; "headers"; "route"; "method"; "env"].

Module MoreSamples.

(** [KeyboardInterrupt()], which does not derive from [Exception]. *)
Definition keyboard_interrupt : exc :=
  mk_exc 9 [UserClass "KeyboardInterrupt"; BaseException] None None None ∅ "".

Definition interrupted : loader := fun _ => Raise keyboard_interrupt.

End MoreSamples.

(** ** The error handler *)

Lemma capture_calls_app l1 l2 :
  capture_calls (l1 ++ l2) = capture_calls l1 ++ capture_calls l2.
Proof. apply List.filter_app. Qed.

(** C8: a control-flow status signal is re-raised as the identical object
    and nothing is captured (the world is left exactly as it was), whatever
    the [only_500] flag, and whatever else the object is an instance of:
    the [HTTPStatus] test comes before every other branch. *)
Theorem error_handler_status_signal (only_500 : bool) (ex : exc) (req : Request)
    (params_ : gmap string pyval) (w : World) :
  isinstance ex HTTPStatus = true ->
  Sentry.error_handler only_500 ex req params_ w = (Raise ex, w).
Proof.
  intros Hstatus. unfold Sentry.error_handler. now rewrite Hstatus.
Qed.

Lemma error_handler_status_signal_witness :
  isinstance Samples.status_and_error HTTPStatus = true /\
  isinstance Samples.status_and_error HTTPError = true /\
  Sentry.error_handler false Samples.status_and_error Samples.request
      Samples.route_params (Samples.world ∅ (AttrSet None))
    = (Raise Samples.status_and_error, Samples.world ∅ (AttrSet None)).
Proof.
  split; [reflexivity|]. split; [reflexivity|].
  apply (error_handler_status_signal false Samples.status_and_error).
  reflexivity.
Defined.

(** C7: with [only_500] set, an HTTP error whose code lies in [400,499] is
    re-raised unchanged and no capture call is made: the world, and with it
    the call log of the raven client, is left exactly as it was. *)
Theorem error_handler_only_500_client_error (ex : exc) (req : Request)
    (params_ : gmap string pyval) (w : World) (c : Z) :
  isinstance ex HTTPError = true ->
  exc_code ex = Some c ->
  400 <= c <= 499 ->
  Sentry.error_handler true ex req params_ w = (Raise ex, w).
Proof.
  intros Herror Hcode Hrange. unfold Sentry.error_handler.
  destruct (isinstance ex HTTPStatus); [reflexivity|].
  rewrite Herror, Hcode. unfold int_or.
  destruct (Z.eqb_spec c 0) as [->|_]; [lia|].
  assert ((c <? 500) = true) as -> by (apply Z.ltb_lt; lia).
  reflexivity.
Qed.

Lemma error_handler_only_500_client_error_witness :
  Sentry.error_handler true (Samples.http_error (Some 404)) Samples.request
      Samples.route_params (Samples.world ∅ (AttrSet None))
    = (Raise (Samples.http_error (Some 404)), Samples.world ∅ (AttrSet None)).
Proof.
  apply (error_handler_only_500_client_error (Samples.http_error (Some 404))
           Samples.request Samples.route_params _ 404);
    [reflexivity | reflexivity | lia].
Defined.

(** C5: for an HTTP error (one that is not a status signal) the handler
    takes [code = ex.code or 500]: a missing code, like the code 0, counts
    as 500, any other code as itself.  When it reports, that is unless
    [only_500] holds and [code < 500], it makes exactly one capture call,
    with level "errors" if [code < 500] and "fatal" otherwise, and with an
    [extra] that has, key by key, the route param if there is one and the
    field of the error's [to_dict()] otherwise; it changes nothing else and
    re-raises the original error. *)
Theorem error_handler_http_error (only_500 : bool) (ex : exc) (req : Request)
    (params_ : gmap string pyval) (w : World) :
  isinstance ex HTTPStatus = false ->
  isinstance ex HTTPError = true ->
  exists code : Z,
    (exc_code ex = None \/ exc_code ex = Some 0 -> code = 500) /\
    (forall z, exc_code ex = Some z -> z <> 0 -> code = z) /\
    (only_500 && (code <? 500) = false ->
     exists level extra,
       (code < 500 -> level = "errors") /\
       (500 <= code -> level = "fatal") /\
       (forall k, extra !! k = match params_ !! k with
                               | Some v => Some v
                               | None => exc_to_dict ex !! k
                               end) /\
       Sentry.error_handler only_500 ex req params_ w
         = (Raise ex, captured level extra w) /\
       capture_calls
           (calls (client (sentry (Sentry.error_handler only_500 ex req params_ w).2)))
         = capture_calls (calls (client (sentry w)))
           ++ [CallCaptureException level extra]).
Proof.
  intros Hstatus Herror.
  exists (int_or (exc_code ex) 500).
  split; [intros [-> | ->]; reflexivity|].
  split.
  { intros z -> Hz. simpl. now destruct (Z.eqb_spec z 0). }
  intros Hreport.
  assert (Sentry.error_handler only_500 ex req params_ w
    = (Raise ex,
       captured (if int_or (exc_code ex) 500 <? 500 then "errors" else "fatal")
                (dict_update (exc_to_dict ex) params_) w)) as Hrun.
  { unfold Sentry.error_handler. rewrite Hstatus, Herror.
    run_monad. rewrite Hreport. reflexivity. }
  eexists _, _. split; [|split; [|split; [|split; [exact Hrun|]]]].
  - intros Hlt. apply Z.ltb_lt in Hlt. now rewrite Hlt.
  - intros Hge. apply Z.ltb_ge in Hge. now rewrite Hge.
  - intros k. unfold dict_update.
    destruct (params_ !! k) as [v|] eqn:Hk.
    + now apply lookup_union_Some_l.
    + now rewrite lookup_union_r.
  - rewrite Hrun. simpl. rewrite capture_calls_app. reflexivity.
Qed.

Lemma error_handler_http_error_witness :
  exists extra,
    Sentry.error_handler false (Samples.http_error (Some 404)) Samples.request
        Samples.route_params (Samples.world ∅ (AttrSet None))
      = (Raise (Samples.http_error (Some 404)),
         captured "errors" extra (Samples.world ∅ (AttrSet None))) /\
    extra !! "title" = Some (VStr "Not Found") /\
    extra !! "id" = Some (VInt 42) /\
    (forall k, k <> "title" -> k <> "id" -> extra !! k = None).
Proof.
  destruct (error_handler_http_error false (Samples.http_error (Some 404))
              Samples.request Samples.route_params
              (Samples.world ∅ (AttrSet None)) eq_refl eq_refl)
    as (code & _ & Hcode & Hreport).
  assert (code = 404) as -> by (apply Hcode; [reflexivity | lia]).
  destruct (Hreport eq_refl) as (level & extra & Herrors & _ & Hextra & Hrun & _).
  assert (level = "errors") as -> by (apply Herrors; lia).
  exists extra. split; [exact Hrun|].
  split; [rewrite Hextra; vm_compute; reflexivity|].
  split; [rewrite Hextra; vm_compute; reflexivity|].
  intros k Htitle Hid. rewrite Hextra. unfold Samples.route_params. simpl.
  rewrite !lookup_singleton_ne by congruence. reflexivity.
Defined.

(** C6: an error that is neither a status signal nor an HTTP error is
    reported by exactly one capture call with level "fatal" and with [extra]
    the route params alone, whatever [only_500] is; what is raised is a newly
    built internal-server error whose description is [str(ex)], an object
    different from [ex]. *)
Theorem error_handler_unclassified (only_500 : bool) (ex : exc) (req : Request)
    (params_ : gmap string pyval) (w : World) :
  isinstance ex HTTPStatus = false ->
  isinstance ex HTTPError = false ->
  let raised := internal_error_for ex (next_oid w) in
  Sentry.error_handler only_500 ex req params_ w
    = (Raise raised,
       captured "fatal" params_ (mk_World (sentry w) (response w) (S (next_oid w)))) /\
  capture_calls (calls (client (sentry (Sentry.error_handler only_500 ex req params_ w).2)))
    = capture_calls (calls (client (sentry w))) ++ [CallCaptureException "fatal" params_] /\
  exc_description raised = Some (exc_str ex) /\
  isinstance raised HTTPInternalServerError = true /\
  raised <> ex.
Proof.
  intros Hstatus Herror raised.
  assert (Sentry.error_handler only_500 ex req params_ w
    = (Raise raised,
       captured "fatal" params_ (mk_World (sentry w) (response w) (S (next_oid w)))))
    as Hrun.
  { unfold Sentry.error_handler. rewrite Hstatus, Herror. reflexivity. }
  split; [exact Hrun|]. split.
  { rewrite Hrun. simpl. rewrite capture_calls_app. reflexivity. }
  split; [reflexivity|]. split; [reflexivity|].
  intros Heq. rewrite <- Heq in Herror. discriminate Herror.
Qed.

Lemma error_handler_unclassified_witness :
  Sentry.error_handler true Samples.boom Samples.request Samples.route_params
      (Samples.world ∅ (AttrSet None))
    = (Raise (internal_error_for Samples.boom 1),
       captured "fatal" Samples.route_params
         (mk_World (sentry (Samples.world ∅ (AttrSet None)))
            (mk_Response ∅ HeadersAbsent) 2)) /\
  exc_description (internal_error_for Samples.boom 1) = Some "boom".
Proof.
  destruct (error_handler_unclassified true Samples.boom Samples.request
              Samples.route_params (Samples.world ∅ (AttrSet None))
              eq_refl eq_refl) as (Hrun & _ & Hdescr & _).
  split; [exact Hrun | exact Hdescr].
Defined.

(** The handler never assigns [last_event_id]: it calls
    [self.client.captureException], the method of the raven client, not
    [Sentry.captureException]. *)
Lemma error_handler_last_event_id (only_500 : bool) (ex : exc) (req : Request)
    (params_ : gmap string pyval) (w : World) :
  last_event_id (sentry (Sentry.error_handler only_500 ex req params_ w).2)
    = last_event_id (sentry w).
Proof.
  unfold Sentry.error_handler.
  destruct (isinstance ex HTTPStatus); [reflexivity|].
  destruct (isinstance ex HTTPError); [|reflexivity].
  run_monad.
  destruct (only_500 && (int_or (exc_code ex) 500 <? 500)); reflexivity.
Qed.

(** The handler always raises. *)
Lemma error_handler_raises (only_500 : bool) (ex : exc) (req : Request)
    (params_ : gmap string pyval) (w : World) :
  exists e, (Sentry.error_handler only_500 ex req params_ w).1 = Raise e.
Proof.
  unfold Sentry.error_handler.
  destruct (isinstance ex HTTPStatus); [eexists; reflexivity|].
  destruct (isinstance ex HTTPError); [|eexists; reflexivity].
  run_monad.
  destruct (only_500 && (int_or (exc_code ex) 500 <? 500)); eexists; reflexivity.
Qed.

(** C1, on a Sentry object whose [last_event_id] is [None] (as
    [clear_context] leaves it): the handler reports [ValueError("boom")],
    the transport returns the event id "e1", yet [last_event_id] is still
    [None] afterwards, and the after-request step that follows completes
    without an [X-Sentry-ID] header. *)
Theorem error_handler_event_id_not_stored :
  let w := Samples.world ∅ (AttrSet None) in
  let w1 := (Sentry.error_handler false Samples.boom Samples.request
               Samples.route_params w).2 in
  let after := SentryMiddleware.process_response
                 (Sentry_middleware (sentry w1)) Samples.request w1 in
  capture_calls (calls (client (sentry w1)))
    = [CallCaptureException "fatal" Samples.route_params] /\
  transport (client (sentry w1)) (CallCaptureException "fatal" Samples.route_params)
    = Some "e1" /\
  last_event_id (sentry w1) = AttrSet None /\
  after.1 = Ok tt /\
  resp_headers (response after.2) !! "X-Sentry-ID" = None.
Proof.
  repeat split; reflexivity.
Qed.

(** C2, on [Sentry(body_context_loader=B, user_context_loader=U)]: the
    middleware of the [middleware] property holds [U] as its body loader and
    [B] as its user loader; its before-request step stores the result of [U]
    under the [body] key of the http context and hands the result of [B] to
    [user_context]. *)
Theorem middleware_loaders_exchanged :
  exists s : SentryObj,
    Sentry.init Samples.setup_logging Sentry.NoClient Samples.client_cls None
      false None 0 (Some Samples.U) (Some Samples.B) ∅ 0%nat = Ok s /\
    body_context_loader s = Some Samples.B /\
    user_context_loader s = Some Samples.U /\
    mw_body_context_loader (Sentry_middleware s) = Some Samples.U /\
    mw_user_context_loader (Sentry_middleware s) = Some Samples.B /\
    let w' := (SentryMiddleware.process_request (Sentry_middleware s)
                 Samples.request (mk_World s (mk_Response ∅ HeadersAbsent) 1)).2 in
    context (client (sentry w')) !! "user" = Some (VStr "the-body") /\
    exists d, context (client (sentry w')) !! "request" = Some (VDict d) /\
              d !! "body" = Some (VDict {[ "id" := VInt 1 ]}).
Proof.
  eexists. split; [reflexivity|].
  repeat split; try reflexivity.
  eexists. split; vm_compute; reflexivity.
Qed.

Lemma Sentry_middleware_loaders (s : SentryObj) :
  mw_body_context_loader (Sentry_middleware s) = user_context_loader s /\
  mw_user_context_loader (Sentry_middleware s) = body_context_loader s.
Proof. split; reflexivity. Qed.

(** ** The context store *)

Lemma http_context_merge (data d0 : gmap string pyval) (w : World) :
  stored_request (context (client (sentry w))) = Some d0 ->
  Sentry.http_context data w = (Ok tt, with_request (dict_update d0 data) w).
Proof.
  unfold stored_request, Sentry.http_context, Client.context_get. run_monad.
  destruct (context (client (sentry w)) !! "request") as [[]|];
    intros [= <-]; reflexivity.
Qed.

Lemma stored_request_with_request (d : gmap string pyval) (w : World) :
  stored_request (context (client (sentry (with_request d w)))) = Some d.
Proof.
  unfold stored_request, with_request. simpl. now rewrite lookup_insert_eq.
Qed.

(** C9: on every context store whose http sub-mapping is [d0], calling
    [http_context] with {a:1} and then with {b:2} succeeds twice and leaves
    an http sub-mapping that holds a:1 and b:2 and every other key of [d0];
    the other keys of the store are untouched. *)
Theorem http_context_additive (w : World) (d0 : gmap string pyval) :
  stored_request (context (client (sentry w))) = Some d0 ->
  exists w1 w2 d,
    Sentry.http_context {[ "a" := VInt 1 ]} w = (Ok tt, w1) /\
    Sentry.http_context {[ "b" := VInt 2 ]} w1 = (Ok tt, w2) /\
    context (client (sentry w2)) !! "request" = Some (VDict d) /\
    d !! "a" = Some (VInt 1) /\
    d !! "b" = Some (VInt 2) /\
    (forall k, k <> "a" -> k <> "b" -> d !! k = d0 !! k) /\
    (forall k, k <> "request" ->
       context (client (sentry w2)) !! k = context (client (sentry w)) !! k).
Proof.
  intros Hstored.
  pose proof (http_context_merge {[ "a" := VInt 1 ]} d0 w Hstored) as H1.
  pose proof (http_context_merge {[ "b" := VInt 2 ]} _ _
                (stored_request_with_request
                   (dict_update d0 {[ "a" := VInt 1 ]}) w)) as H2.
  eexists _, _, _. split; [exact H1|]. split; [exact H2|].
  unfold dict_update, with_request. simpl.
  split; [apply lookup_insert_eq|].
  split.
  { rewrite lookup_union_r by (now apply lookup_singleton_ne).
    rewrite lookup_union_l' by (rewrite lookup_singleton_eq; eauto).
    apply lookup_singleton_eq. }
  split.
  { rewrite lookup_union_l' by (rewrite lookup_singleton_eq; eauto).
    apply lookup_singleton_eq. }
  split.
  { intros k Ha Hb.
    rewrite lookup_union_r by (now apply lookup_singleton_ne).
    now rewrite lookup_union_r by (now apply lookup_singleton_ne). }
  intros k Hk. now rewrite !lookup_insert_ne by congruence.
Qed.

Lemma http_context_additive_witness :
  exists w1 w2 d,
    Sentry.http_context {[ "a" := VInt 1 ]}
        (Samples.world {[ "request" := VDict {[ "url" := VStr "http://example.com/" ]} ]}
           AttrUnset) = (Ok tt, w1) /\
    Sentry.http_context {[ "b" := VInt 2 ]} w1 = (Ok tt, w2) /\
    context (client (sentry w2)) !! "request" = Some (VDict d) /\
    d !! "a" = Some (VInt 1) /\
    d !! "b" = Some (VInt 2) /\
    d !! "url" = Some (VStr "http://example.com/").
Proof.
  assert (stored_request (context (client (sentry
            (Samples.world {[ "request" := VDict {[ "url" := VStr "http://example.com/" ]} ]}
               AttrUnset))))
          = Some {[ "url" := VStr "http://example.com/" ]}) as Hstored
    by (vm_compute; reflexivity).
  destruct (http_context_additive _ _ Hstored)
    as (w1 & w2 & d & H1 & H2 & Hreq & Ha & Hb & Hother & _).
  exists w1, w2, d. repeat (split; [assumption|]).
  rewrite Hother by discriminate. reflexivity.
Defined.

(** ** The after-request step *)

Lemma clear_count_app l1 l2 :
  clear_count (l1 ++ l2) = (clear_count l1 + clear_count l2)%nat.
Proof. unfold clear_count. now rewrite List.filter_app, length_app. Qed.

Lemma process_response_set (self : MiddlewareObj) (req : Request) (w : World)
    (v : option string) :
  last_event_id (sentry w) = AttrSet v ->
  header_assignment_fails v (response w) = false ->
  SentryMiddleware.process_response self req w
    = (Ok tt, cleared (set_response (with_event_header v) w)).
Proof.
  destruct w as [s [hs kind] n]. simpl. intros Hattr Hheaders.
  unfold SentryMiddleware.process_response, Sentry.get_last_event_id,
    SentryMiddleware.headers_setitem, Sentry.clear_context, Client.context_clear,
    Client.call, with_event_header, header_assignment_fails in *.
  run_monad. simpl in Hheaders. rewrite Hattr. simpl.
  destruct (event_id_truthy v); simpl; [|reflexivity].
  rewrite Hattr. simpl.
  destruct kind; [discriminate Hheaders | reflexivity | reflexivity].
Qed.

Lemma process_response_headers_absent (self : MiddlewareObj) (req : Request)
    (w : World) (v : option string) :
  last_event_id (sentry w) = AttrSet v ->
  header_assignment_fails v (response w) = true ->
  SentryMiddleware.process_response self req w
    = (Raise (mk_exc (next_oid w) [AttributeError; Exception_; BaseException]
                None None None ∅
                "'Response' object has no attribute 'headers'"),
       bumped w).
Proof.
  intros Hattr Hheaders.
  unfold SentryMiddleware.process_response, Sentry.get_last_event_id,
    SentryMiddleware.headers_setitem, raise_AttributeError, new_exc,
    header_assignment_fails in *.
  run_monad. rewrite Hattr. simpl.
  destruct (event_id_truthy v); [|discriminate Hheaders]. simpl.
  rewrite Hattr. simpl.
  destruct (resp_headers_attr (response w)); try discriminate Hheaders.
  reflexivity.
Qed.

Lemma process_response_unset (self : MiddlewareObj) (req : Request) (w : World) :
  last_event_id (sentry w) = AttrUnset ->
  SentryMiddleware.process_response self req w
    = (Raise (mk_exc (next_oid w) [AttributeError; Exception_; BaseException]
                None None None ∅
                "'Sentry' object has no attribute 'last_event_id'"),
       mk_World (sentry w) (response w) (S (next_oid w))).
Proof.
  intros Hattr.
  unfold SentryMiddleware.process_response, Sentry.get_last_event_id,
    raise_AttributeError, new_exc.
  run_monad. now rewrite Hattr.
Qed.

(** C3, as stated, fails: on a Sentry object whose [last_event_id] was
    never assigned the header logic raises, and the step leaves the user
    context in the store, the attribute unassigned and the raven client
    without a clear call. *)
Lemma process_response_clear_not_guaranteed :
  ~ (forall (self : MiddlewareObj) (req : Request) (w : World),
       let w' := (SentryMiddleware.process_response self req w).2 in
       context (client (sentry w')) = ∅ /\
       last_event_id (sentry w') = AttrSet None /\
       clear_count (calls (client (sentry w')))
         = S (clear_count (calls (client (sentry w))))).
Proof.
  intros Hclaim.
  destruct (Hclaim (SentryMiddleware.init None None) Samples.request
              (Samples.world {[ "user" := VDict {[ "id" := VInt 1 ]} ]} AttrUnset))
    as (_ & Hattr & _).
  discriminate Hattr.
Qed.

(** C3, amended: whenever the header logic does not raise, that is
    whenever [last_event_id] has been assigned and, if it is truthy, the
    response has a [headers] attribute, the after-request step completes and
    runs [clear_context] exactly once: the context store is empty and
    [last_event_id] is [None] afterwards.  The header is written exactly
    when the event id is truthy and [resp.headers] is the response's own
    mapping.  This holds whether or not an error was handled before. *)
Theorem process_response_clears_once (self : MiddlewareObj) (req : Request)
    (w : World) (v : option string) :
  last_event_id (sentry w) = AttrSet v ->
  (event_id_truthy v = true -> resp_headers_attr (response w) <> HeadersAbsent) ->
  let after := SentryMiddleware.process_response self req w in
  after.1 = Ok tt /\
  context (client (sentry after.2)) = ∅ /\
  last_event_id (sentry after.2) = AttrSet None /\
  clear_count (calls (client (sentry after.2)))
    = S (clear_count (calls (client (sentry w)))) /\
  response after.2 = with_event_header v (response w).
Proof.
  intros Hattr Hheaders after. subst after.
  assert (header_assignment_fails v (response w) = false) as Hok.
  { unfold header_assignment_fails.
    destruct (event_id_truthy v); [|reflexivity].
    specialize (Hheaders eq_refl).
    now destruct (resp_headers_attr (response w)). }
  rewrite (process_response_set self req w v Hattr Hok). simpl.
  repeat split. rewrite clear_count_app.
  change (clear_count [CallContextClear]) with 1%nat. lia.
Qed.

Lemma process_response_clears_once_witness :
  let w := Samples.world {[ "user" := VDict {[ "id" := VInt 1 ]} ]} (AttrSet None) in
  let after := SentryMiddleware.process_response
                 (SentryMiddleware.init None None) Samples.request w in
  let w' := (Sentry.captureException "fatal" Samples.route_params
               (Samples.world_with HeadersLive
                  {[ "user" := VDict {[ "id" := VInt 1 ]} ]} AttrUnset)).2 in
  let after' := SentryMiddleware.process_response
                  (SentryMiddleware.init None None) Samples.request w' in
  (resp_headers_attr (response w) = HeadersAbsent /\
   after.1 = Ok tt /\
   context (client (sentry after.2)) = ∅ /\
   last_event_id (sentry after.2) = AttrSet None /\
   clear_count (calls (client (sentry after.2))) = 1%nat) /\
  (last_event_id (sentry w') = AttrSet (Some "e1") /\
   after'.1 = Ok tt /\
   context (client (sentry after'.2)) = ∅ /\
   last_event_id (sentry after'.2) = AttrSet None /\
   resp_headers (response after'.2) !! "X-Sentry-ID" = Some (VStr "e1")).
Proof.
  intros w after w' after'. split.
  - destruct (process_response_clears_once (SentryMiddleware.init None None)
                Samples.request w None eq_refl ltac:(discriminate))
      as (Hok & Hctx & Hattr & Hcount & _).
    split; [reflexivity|]. split; [exact Hok|]. split; [exact Hctx|].
    split; [exact Hattr | exact Hcount].
  - destruct (process_response_clears_once (SentryMiddleware.init None None)
                Samples.request w' (Some "e1") eq_refl ltac:(discriminate))
      as (Hok & Hctx & Hattr & _ & Hresp).
    split; [reflexivity|]. split; [exact Hok|]. split; [exact Hctx|].
    split; [exact Hattr|].
    fold after' in Hresp. rewrite Hresp. vm_compute. reflexivity.
Defined.

(** ** The before-request step *)

Lemma process_request_blocks (self : MiddlewareObj) (req : Request) (w : World) :
  SentryMiddleware.process_request self req w
    = match http_block self req w with
      | (Ok _, w') => user_block self req w'
      | (Raise e, w') => (Raise e, w')
      end.
Proof. reflexivity. Qed.

Lemma http_context_no_mapping (data : gmap string pyval) (w : World) :
  stored_request (context (client (sentry w))) = None ->
  Sentry.http_context data w
    = (Raise (mk_exc (next_oid w) [AttributeError; Exception_; BaseException]
                None None None ∅ "object has no attribute 'update'"),
       bumped w).
Proof.
  unfold stored_request, Sentry.http_context, Client.context_get. run_monad.
  destruct (context (client (sentry w)) !! "request") as [[]|];
    intros [=]; reflexivity.
Qed.

(** What the first block does to the world, by the outcome of the body
    loader and the state of the context store. *)
Lemma http_block_run self req w :
  http_block self req w
    = match built_request_context self req with
      | Ok rc =>
          match stored_request (context (client (sentry w))) with
          | Some d0 => (Ok tt, with_request (dict_update d0 rc) w)
          | None => (Ok tt, logged "object has no attribute 'update'" (bumped w))
          end
      | Raise e =>
          if isinstance e Exception_ then (Ok tt, logged (exc_str e) w)
          else (Raise e, w)
      end.
Proof.
  assert (forall rc,
    try_except_Exception (Sentry.http_context rc) (fun ex => Sentry._log_exception ex) w
      = match stored_request (context (client (sentry w))) with
        | Some d0 => (Ok tt, with_request (dict_update d0 rc) w)
        | None => (Ok tt, logged "object has no attribute 'update'" (bumped w))
        end) as Hhttp.
  { intros rc. unfold try_except_Exception.
    destruct (stored_request (context (client (sentry w)))) as [d0|] eqn:Hstored.
    - now rewrite (http_context_merge rc d0 w Hstored).
    - now rewrite (http_context_no_mapping rc w Hstored). }
  unfold http_block, built_request_context.
  destruct (mw_body_context_loader self) as [f|].
  - unfold lift_result, try_except_Exception, mbind, M_bind, bind, mret, M_ret, ret.
    destruct (f req) as [body|e].
    + apply Hhttp.
    + destruct (isinstance e Exception_); reflexivity.
  - apply Hhttp.
Qed.

(** What the second block does to the world, by the outcome of the user
    loader. *)
Lemma user_block_run self req w :
  user_block self req w
    = match mw_user_context_loader self with
      | None => (Ok tt, w)
      | Some g =>
          match g req with
          | Ok u => (Ok tt, with_user u w)
          | Raise e =>
              if isinstance e Exception_ then (Ok tt, logged (exc_str e) w)
              else (Raise e, w)
          end
      end.
Proof.
  unfold user_block, try_except_Exception.
  destruct (mw_user_context_loader self) as [g|]; [|reflexivity].
  unfold lift_result, mbind, M_bind, bind.
  destruct (g req) as [u|e]; [reflexivity|].
  destruct (isinstance e Exception_); reflexivity.
Qed.

Lemma user_block_last_event_id (self : MiddlewareObj) (req : Request) (w : World) :
  last_event_id (sentry (user_block self req w).2) = last_event_id (sentry w).
Proof.
  rewrite user_block_run.
  destruct (mw_user_context_loader self) as [g|]; [|reflexivity].
  destruct (g req) as [u|e]; [reflexivity|].
  destruct (isinstance e Exception_); reflexivity.
Qed.

Lemma process_request_last_event_id (self : MiddlewareObj) (req : Request) (w : World) :
  last_event_id (sentry (SentryMiddleware.process_request self req w).2)
    = last_event_id (sentry w).
Proof.
  rewrite process_request_blocks, http_block_run.
  destruct (built_request_context self req) as [rc|e].
  - destruct (stored_request (context (client (sentry w))));
      now rewrite user_block_last_event_id.
  - destruct (isinstance e Exception_); [|reflexivity].
    now rewrite user_block_last_event_id.
Qed.

Lemma request_step_last_event_id (w w' : World) :
  request_step w w' -> last_event_id (sentry w') = last_event_id (sentry w).
Proof.
  intros [self req w0 | only_500 ex req params_ w0].
  - apply process_request_last_event_id.
  - apply error_handler_last_event_id.
Qed.

Lemma request_steps_last_event_id (w w' : World) :
  rtc request_step w w' -> last_event_id (sentry w') = last_event_id (sentry w).
Proof.
  induction 1 as [|w1 w2 w3 Hstep _ IH]; [reflexivity|].
  rewrite IH. now apply request_step_last_event_id.
Qed.

Lemma init_last_event_id setup_logging client_ client_cls dsn_ handle_logging
    logging_exclusions level user_context_loader_ body_context_loader_ options oid s :
  Sentry.init setup_logging client_ client_cls dsn_ handle_logging logging_exclusions
    level user_context_loader_ body_context_loader_ options oid = Ok s ->
  last_event_id s = AttrUnset.
Proof.
  unfold Sentry.init, Sentry.configure_logging.
  destruct client_ as [|c|[]]; try discriminate;
    try (destruct (client_cls dsn_ options) as [c|e]; [|discriminate]);
    (destruct handle_logging;
     [destruct (setup_logging _ _ _); [|discriminate]|]);
    simpl; intros [= <-]; reflexivity.
Qed.

(** C10: a Sentry object as [__init__] leaves it has no [last_event_id];
    the before-request step and the error handler do not assign it either;
    so the after-request step that follows raises an [AttributeError] and
    leaves the Sentry object and the response as they were: nothing is
    cleared. *)
Theorem fresh_sentry_process_response_fails
    setup_logging client_ client_cls dsn_ handle_logging logging_exclusions level
    user_context_loader_ body_context_loader_ options oid
    (s : SentryObj) (resp : Response) (n : nat) (w : World)
    (self : MiddlewareObj) (req : Request) :
  Sentry.init setup_logging client_ client_cls dsn_ handle_logging logging_exclusions
    level user_context_loader_ body_context_loader_ options oid = Ok s ->
  rtc request_step (mk_World s resp n) w ->
  last_event_id s = AttrUnset /\
  exists e,
    SentryMiddleware.process_response self req w = (Raise e, bumped w) /\
    isinstance e AttributeError = true /\
    sentry (bumped w) = sentry w /\
    response (bumped w) = response w.
Proof.
  intros Hinit Hsteps.
  pose proof (init_last_event_id _ _ _ _ _ _ _ _ _ _ _ _ Hinit) as Hunset.
  split; [exact Hunset|].
  pose proof (request_steps_last_event_id _ _ Hsteps) as Hkeep.
  simpl in Hkeep. rewrite Hunset in Hkeep.
  eexists. split; [apply (process_response_unset self req w Hkeep)|].
  repeat split.
Qed.

Lemma fresh_sentry_process_response_fails_witness :
  let s := mk_SentryObj None Samples.raven None (Some Samples.B) (Some Samples.U)
             AttrUnset in
  let w0 := mk_World s (mk_Response ∅ HeadersAbsent) 1 in
  let w1 := (SentryMiddleware.process_request (Sentry_middleware s)
               Samples.request w0).2 in
  let w2 := (Sentry.error_handler false Samples.boom Samples.request
               Samples.route_params w1).2 in
  Sentry.init Samples.setup_logging Sentry.NoClient Samples.client_cls None
    false None 0 (Some Samples.U) (Some Samples.B) ∅ 0%nat = Ok s /\
  exists e,
    SentryMiddleware.process_response (Sentry_middleware s) Samples.request w2
      = (Raise e, bumped w2) /\
    isinstance e AttributeError = true.
Proof.
  intros s w0 w1 w2. split; [reflexivity|].
  destruct (fresh_sentry_process_response_fails
              Samples.setup_logging Sentry.NoClient Samples.client_cls None
              false None 0 (Some Samples.U) (Some Samples.B) ∅ 0%nat
              s (mk_Response ∅ HeadersAbsent) 1%nat w2 (Sentry_middleware s)
              Samples.request eq_refl
              (rtc_l _ _ _ _
                 (step_process_request (Sentry_middleware s) Samples.request w0)
                 (rtc_once _ _
                    (step_error_handler false Samples.boom Samples.request
                       Samples.route_params w1))))
    as (_ & e & Hrun & Hclass & _).
  exists e. split; [exact Hrun | exact Hclass].
Defined.

Lemma user_block_raise self req w e :
  (user_block self req w).1 = Raise e -> isinstance e Exception_ = false.
Proof.
  rewrite user_block_run.
  destruct (mw_user_context_loader self) as [g|]; [|discriminate].
  destruct (g req) as [u|e']; [discriminate|].
  destruct (isinstance e' Exception_) eqn:Hcls; [discriminate|].
  now intros [= <-].
Qed.

(** The second block leaves the http side of the raven client alone and
    only adds to the call log. *)
Lemma user_block_frame self req w :
  let w' := (user_block self req w).2 in
  http_context_calls (calls (client (sentry w')))
    = http_context_calls (calls (client (sentry w))) /\
  context (client (sentry w')) !! "request" = context (client (sentry w)) !! "request" /\
  (forall k, In k (calls (client (sentry w))) -> In k (calls (client (sentry w')))).
Proof.
  rewrite user_block_run.
  destruct (mw_user_context_loader self) as [g|]; [|now repeat split].
  destruct (g req) as [u|e].
  - simpl. unfold http_context_calls. rewrite List.filter_app, app_nil_r.
    repeat split; [|intros k Hk; apply in_or_app; now left].
    now rewrite lookup_insert_ne by discriminate.
  - destruct (isinstance e Exception_); [|now repeat split].
    simpl. unfold http_context_calls. rewrite List.filter_app, app_nil_r.
    repeat split. intros k Hk. apply in_or_app. now left.
Qed.

(** C4, as stated, fails: with a body loader that raises [KeyError], the
    before-request step ends without any request context in the store. *)
Lemma process_request_context_not_attached :
  ~ (forall (self : MiddlewareObj) (req : Request) (w : World),
       let w' := (SentryMiddleware.process_request self req w).2 in
       exists d, context (client (sentry w')) !! "request" = Some (VDict d) /\
                 In (CallHttpContext d) (calls (client (sentry w')))).
Proof.
  intros Hclaim.
  destruct (Hclaim (SentryMiddleware.init None (Some Samples.failing))
              Samples.request (Samples.world ∅ (AttrSet None)))
    as (d & Hreq & _).
  vm_compute in Hreq. discriminate Hreq.
Qed.

(** C4, amended: the before-request step never lets an exception derived
    from [Exception] escape.  When the body loader is absent or returns, and
    the stored request entry is absent or a mapping [d0], it makes one
    [http_context] call and the store then holds a mapping that has, key by
    key, the value of the request context built from the request (with the
    loader's result under [body]) and else the value of [d0].  When the body
    loader raises an exception derived from [Exception], whatever the store
    holds, the step logs it and goes on to the user loader, but
    [http_context] is not called and the store keeps the request entry it
    had. *)
Theorem process_request_body_loader (self : MiddlewareObj) (req : Request)
    (w : World) :
  let after := SentryMiddleware.process_request self req w in
  let rc := SentryMiddleware.get_request_context req in
  let attached (d : gmap string pyval) :=
    forall d0, stored_request (context (client (sentry w))) = Some d0 ->
    exists m,
      (forall k, m !! k = match d !! k with
                          | Some v => Some v
                          | None => d0 !! k
                          end) /\
      http_context_calls (calls (client (sentry after.2)))
        = http_context_calls (calls (client (sentry w))) ++ [CallHttpContext m] /\
      context (client (sentry after.2)) !! "request" = Some (VDict m) in
  (forall e, after.1 = Raise e -> isinstance e Exception_ = false) /\
  (mw_body_context_loader self = None -> attached rc) /\
  (forall f body, mw_body_context_loader self = Some f -> f req = Ok body ->
     attached (<["body" := body]> rc)) /\
  (forall f e, mw_body_context_loader self = Some f -> f req = Raise e ->
     isinstance e Exception_ = true ->
     after.1 <> Raise e /\
     In (CallLoggerException (exc_str e)) (calls (client (sentry after.2))) /\
     http_context_calls (calls (client (sentry after.2)))
       = http_context_calls (calls (client (sentry w))) /\
     context (client (sentry after.2)) !! "request"
       = context (client (sentry w)) !! "request" /\
     (forall g u, mw_user_context_loader self = Some g -> g req = Ok u ->
        context (client (sentry after.2)) !! "user" = Some u)).
Proof.
  intros after rc attached.
  assert (forall d, built_request_context self req = Ok d -> attached d) as Hattached.
  { intros d Hbuilt d0 Hstored. subst attached after. simpl.
    rewrite process_request_blocks, http_block_run, Hbuilt, Hstored.
    destruct (user_block_frame self req (with_request (dict_update d0 d) w))
      as (Hcalls & Hctx & _).
    exists (dict_update d0 d). split.
    { intros k. unfold dict_update.
      destruct (d !! k) as [v|] eqn:Hk.
      - now apply lookup_union_Some_l.
      - now rewrite lookup_union_r. }
    rewrite Hcalls, Hctx. simpl. split; [|apply lookup_insert_eq].
    unfold http_context_calls. now rewrite List.filter_app. }
  split; [|split; [|split]].
  - intros e. subst after. rewrite process_request_blocks, http_block_run.
    destruct (built_request_context self req) as [d|e0].
    + destruct (stored_request (context (client (sentry w))));
        apply user_block_raise.
    + destruct (isinstance e0 Exception_) eqn:Hcls; [apply user_block_raise|].
      now intros [= <-].
  - intros Hnone. apply Hattached. unfold built_request_context. now rewrite Hnone.
  - intros f body Hsome Hf. apply Hattached. unfold built_request_context.
    now rewrite Hsome, Hf.
  - intros f e Hsome Hf Hcls. subst after.
    assert (built_request_context self req = Raise e) as Hbuilt
      by (unfold built_request_context; now rewrite Hsome, Hf).
    rewrite process_request_blocks, http_block_run, Hbuilt, Hcls.
    destruct (user_block_frame self req (logged (exc_str e) w))
      as (Hcalls & Hctx & Hlog).
    split.
    { intros Hraise. apply user_block_raise in Hraise. congruence. }
    split.
    { apply Hlog. simpl. apply in_or_app. right. now left. }
    split.
    { rewrite Hcalls. simpl. unfold http_context_calls.
      now rewrite List.filter_app, app_nil_r. }
    split; [exact Hctx|].
    intros g u Hg Hu. rewrite user_block_run, Hg, Hu. simpl.
    apply lookup_insert_eq.
Qed.

Lemma process_request_body_loader_witness :
  let w := Samples.world {[ "request" := VDict {[ "stale" := VInt 1 ]} ]}
             (AttrSet None) in
  let good := SentryMiddleware.process_request
                (SentryMiddleware.init None (Some Samples.B)) Samples.request w in
  let bad := SentryMiddleware.process_request
               (SentryMiddleware.init (Some Samples.U) (Some Samples.failing))
               Samples.request w in
  (exists m,
     context (client (sentry good.2)) !! "request" = Some (VDict m) /\
     http_context_calls (calls (client (sentry good.2))) = [CallHttpContext m] /\
     m !! "body" = Some (VStr "the-body") /\
     m !! "url" = Some (VStr "http://example.com/widgets/42") /\
     m !! "route" = Some (VStr "/widgets/{id}") /\
     m !! "stale" = Some (VInt 1)) /\
  (isinstance Samples.key_error Exception_ = true /\
   bad.1 <> Raise Samples.key_error /\
   In (CallLoggerException "'user'") (calls (client (sentry bad.2))) /\
   http_context_calls (calls (client (sentry bad.2))) = [] /\
   context (client (sentry bad.2)) !! "request"
     = Some (VDict {[ "stale" := VInt 1 ]}) /\
   context (client (sentry bad.2)) !! "user" = Some (VDict {[ "id" := VInt 1 ]})).
Proof.
  intros w good bad.
  assert (stored_request (context (client (sentry w)))
          = Some {[ "stale" := VInt 1 ]}) as Hstored by (vm_compute; reflexivity).
  split.
  - destruct (process_request_body_loader
                (SentryMiddleware.init None (Some Samples.B)) Samples.request w)
      as (_ & _ & Hreturns & _).
    destruct (Hreturns Samples.B (VStr "the-body") eq_refl eq_refl _ Hstored)
      as (m & Hkeys & Hcalls & Hctx).
    exists m. split; [exact Hctx|]. split; [exact Hcalls|].
    repeat split; rewrite Hkeys; vm_compute; reflexivity.
  - destruct (process_request_body_loader
                (SentryMiddleware.init (Some Samples.U) (Some Samples.failing))
                Samples.request w)
      as (_ & _ & _ & Hraises).
    destruct (Hraises Samples.failing Samples.key_error eq_refl eq_refl eq_refl)
      as (Hgoes_on & Hlogged & Hcalls & Hkept & Huser).
    split; [reflexivity|]. split; [exact Hgoes_on|]. split; [exact Hlogged|].
    split; [exact Hcalls|]. split.
    + fold bad in Hkept. rewrite Hkept. vm_compute. reflexivity.
    + apply (Huser Samples.U); reflexivity.
Defined.

(** ** The error handler, on every input *)

(** The outcome of the handler, branch by branch. *)
Lemma error_handler_run (only_500 : bool) (ex : exc) (req : Request)
    (params_ : gmap string pyval) (w : World) :
  Sentry.error_handler only_500 ex req params_ w
    = if isinstance ex HTTPStatus then (Raise ex, w)
      else if isinstance ex HTTPError then
        if only_500 && (int_or (exc_code ex) 500 <? 500) then (Raise ex, w)
        else (Raise ex,
              captured (if int_or (exc_code ex) 500 <? 500 then "errors" else "fatal")
                       (dict_update (exc_to_dict ex) params_) w)
      else (Raise (internal_error_for ex (next_oid w)),
            captured "fatal" params_ (bumped w)).
Proof.
  unfold Sentry.error_handler.
  destruct (isinstance ex HTTPStatus); [reflexivity|].
  destruct (isinstance ex HTTPError); [|reflexivity].
  run_monad.
  destruct (only_500 && (int_or (exc_code ex) 500 <? 500)); reflexivity.
Qed.

(** X1: the handler never returns normally, and what it raises is always
    an instance of [HTTPStatus] or of [HTTPError]: the very object it was
    given when that object is one already, a new internal-server error
    otherwise. *)
Theorem error_handler_raises_http (only_500 : bool) (ex : exc) (req : Request)
    (params_ : gmap string pyval) (w : World) :
  exists e,
    (Sentry.error_handler only_500 ex req params_ w).1 = Raise e /\
    isinstance e HTTPStatus || isinstance e HTTPError = true /\
    (isinstance ex HTTPStatus || isinstance ex HTTPError = true -> e = ex) /\
    (isinstance ex HTTPStatus || isinstance ex HTTPError = false ->
       isinstance e HTTPInternalServerError = true /\
       exc_description e = Some (exc_str ex)).
Proof.
  rewrite error_handler_run.
  destruct (isinstance ex HTTPStatus) eqn:Hstatus.
  { exists ex. rewrite Hstatus. now repeat split. }
  destruct (isinstance ex HTTPError) eqn:Herror.
  { exists ex. rewrite Hstatus, Herror.
    destruct (only_500 && (int_or (exc_code ex) 500 <? 500)); now repeat split. }
  eexists. split; [reflexivity|]. now repeat split.
Qed.

(** X2: the handler touches nothing but the call log of the raven client:
    the context store, the response, [last_event_id] and the loaders are as
    before, and the log grows by nothing or by one [captureException] call
    whose level is "errors" or "fatal". *)
Theorem error_handler_frame (only_500 : bool) (ex : exc) (req : Request)
    (params_ : gmap string pyval) (w : World) :
  let w' := (Sentry.error_handler only_500 ex req params_ w).2 in
  context (client (sentry w')) = context (client (sentry w)) /\
  response w' = response w /\
  last_event_id (sentry w') = last_event_id (sentry w) /\
  body_context_loader (sentry w') = body_context_loader (sentry w) /\
  user_context_loader (sentry w') = user_context_loader (sentry w) /\
  (calls (client (sentry w')) = calls (client (sentry w)) \/
   exists level extra,
     calls (client (sentry w'))
       = calls (client (sentry w)) ++ [CallCaptureException level extra] /\
     (level = "errors" \/ level = "fatal")).
Proof.
  rewrite error_handler_run.
  destruct (isinstance ex HTTPStatus); [by repeat split; auto|].
  destruct (isinstance ex HTTPError).
  - destruct (only_500 && (int_or (exc_code ex) 500 <? 500));
      [by repeat split; auto|].
    repeat split. right. eexists _, _. split; [reflexivity|].
    destruct (int_or (exc_code ex) 500 <? 500); auto.
  - repeat split. right. eexists _, _. split; [reflexivity|]. auto.
Qed.

(** X3: the handler reports exactly when the error is not a status signal
    and is not an HTTP error held back by [only_500], that is one whose
    [code or 500] is below 500 while the flag is set. *)
Theorem error_handler_reports_iff (only_500 : bool) (ex : exc) (req : Request)
    (params_ : gmap string pyval) (w : World) :
  calls (client (sentry (Sentry.error_handler only_500 ex req params_ w).2))
    <> calls (client (sentry w))
  <->
  isinstance ex HTTPStatus = false /\
  (isinstance ex HTTPError = true -> only_500 = true ->
     500 <= int_or (exc_code ex) 500).
Proof.
  assert (forall (l : list RavenCall) k, l ++ [k] <> l) as Hgrows.
  { intros l k Heq. apply (f_equal length) in Heq.
    rewrite length_app in Heq. simpl in Heq. lia. }
  rewrite error_handler_run.
  destruct (isinstance ex HTTPStatus).
  { split; [intros Hne; now contradict Hne | intros [[=] _]]. }
  destruct (isinstance ex HTTPError).
  - destruct only_500; simpl.
    + destruct (Z.ltb_spec (int_or (exc_code ex) 500) 500) as [Hlt|Hge]; simpl.
      * split; [intros Hne; now contradict Hne|].
        intros [_ Hcode]. specialize (Hcode eq_refl eq_refl). lia.
      * split; [now split | intros _; apply Hgrows].
    + split; [|intros _; apply Hgrows]. intros _. split; [reflexivity|]. discriminate.
  - simpl. split; [|intros _; apply Hgrows]. intros _. split; [reflexivity|]. discriminate.
Qed.

(** X4: an HTTP error without a code, or with the code 0, counts as a
    server error: it is reported with level "fatal" whatever [only_500]
    is. *)
Theorem error_handler_missing_code_fatal (only_500 : bool) (ex : exc) (req : Request)
    (params_ : gmap string pyval) (w : World) :
  isinstance ex HTTPStatus = false ->
  isinstance ex HTTPError = true ->
  exc_code ex = None \/ exc_code ex = Some 0 ->
  Sentry.error_handler only_500 ex req params_ w
    = (Raise ex, captured "fatal" (dict_update (exc_to_dict ex) params_) w).
Proof.
  intros Hstatus Herror Hcode. rewrite error_handler_run, Hstatus, Herror.
  assert (int_or (exc_code ex) 500 = 500) as ->
    by (destruct Hcode as [-> | ->]; reflexivity).
  simpl. now rewrite andb_false_r.
Qed.

Lemma error_handler_missing_code_fatal_witness :
  Sentry.error_handler true (Samples.http_error (Some 0)) Samples.request
      Samples.route_params (Samples.world ∅ (AttrSet None))
    = (Raise (Samples.http_error (Some 0)),
       captured "fatal"
         (dict_update {[ "title" := VStr "Not Found" ]} Samples.route_params)
         (Samples.world ∅ (AttrSet None))).
Proof.
  apply (error_handler_missing_code_fatal true (Samples.http_error (Some 0)));
    [reflexivity | reflexivity | right; reflexivity].
Defined.

(** X5: in the [extra] of a reported HTTP error a route param wins over a
    field of [to_dict()] with the same name, and every other field of
    [to_dict()] is kept. *)
Theorem error_handler_extra_params_win (only_500 : bool) (ex : exc) (req : Request)
    (params_ : gmap string pyval) (w : World) :
  isinstance ex HTTPStatus = false ->
  isinstance ex HTTPError = true ->
  only_500 && (int_or (exc_code ex) 500 <? 500) = false ->
  exists level extra,
    calls (client (sentry (Sentry.error_handler only_500 ex req params_ w).2))
      = calls (client (sentry w)) ++ [CallCaptureException level extra] /\
    forall k,
      extra !! k = match params_ !! k with
                   | Some v => Some v
                   | None => exc_to_dict ex !! k
                   end.
Proof.
  intros Hstatus Herror Hreport.
  rewrite error_handler_run, Hstatus, Herror, Hreport.
  eexists _, _. split; [reflexivity|].
  intros k. unfold dict_update.
  destruct (params_ !! k) as [v|] eqn:Hk.
  - now apply lookup_union_Some_l.
  - now rewrite lookup_union_r.
Qed.

Lemma error_handler_extra_params_win_witness :
  exists level extra,
    calls (client (sentry (Sentry.error_handler false (Samples.http_error (Some 404))
                             Samples.request {[ "title" := VStr "widgets" ]}
                             (Samples.world ∅ (AttrSet None))).2))
      = [CallCaptureException level extra] /\
    extra !! "title" = Some (VStr "widgets").
Proof.
  destruct (error_handler_extra_params_win false (Samples.http_error (Some 404))
              Samples.request {[ "title" := VStr "widgets" ]}
              (Samples.world ∅ (AttrSet None)) eq_refl eq_refl eq_refl)
    as (level & extra & Hcalls & Hextra).
  exists level, extra. split; [exact Hcalls|].
  rewrite Hextra. vm_compute. reflexivity.
Defined.

(** ** Captures through the wrapper, and the after-request step *)

Lemma captureException_run (level : string) (extra : gmap string pyval) (w : World) :
  Sentry.captureException level extra w
    = (Ok (transport (client (sentry w)) (CallCaptureException level extra)),
       set_sentry
         (set_last_event_id (transport (client (sentry w))
                               (CallCaptureException level extra)))
         (captured level extra w)).
Proof. reflexivity. Qed.

Lemma captureMessage_run (message : string) (w : World) :
  Sentry.captureMessage message w
    = (Ok (transport (client (sentry w)) (CallCaptureMessage message)),
       set_sentry
         (set_last_event_id (transport (client (sentry w)) (CallCaptureMessage message)))
         (set_sentry (set_client (log_call (CallCaptureMessage message))) w)).
Proof. reflexivity. Qed.

Lemma event_id_truthy_Some (id : string) :
  id <> "" -> event_id_truthy (Some id) = true.
Proof.
  intros Hid. simpl. apply negb_true_iff. now apply String.eqb_neq.
Qed.

(** X6: a capture through [Sentry.captureException] whose transport
    returns a non-empty event id returns that id and assigns it, also on a
    Sentry object that never had [last_event_id] assigned.  What the
    after-request step then does depends on the response.  If [resp.headers]
    is the response's own mapping, the step completes, puts the id into
    [X-Sentry-ID] (all other headers kept) and clears the context store and
    [last_event_id].  If [resp.headers] is a copy, the step completes and
    clears, but the response is unchanged.  If the response has no
    [headers], the step raises an [AttributeError] and clears nothing: the
    context store and the event id stay. *)
Theorem captureException_then_process_response (level : string)
    (extra : gmap string pyval) (self : MiddlewareObj) (req : Request)
    (w : World) (id : string) :
  transport (client (sentry w)) (CallCaptureException level extra) = Some id ->
  id <> "" ->
  let capture := Sentry.captureException level extra w in
  let after := SentryMiddleware.process_response self req capture.2 in
  capture.1 = Ok (Some id) /\
  last_event_id (sentry capture.2) = AttrSet (Some id) /\
  match resp_headers_attr (response w) with
  | HeadersLive =>
      after.1 = Ok tt /\
      resp_headers (response after.2)
        = <["X-Sentry-ID" := VStr id]> (resp_headers (response w)) /\
      context (client (sentry after.2)) = ∅ /\
      last_event_id (sentry after.2) = AttrSet None
  | HeadersCopy =>
      after.1 = Ok tt /\
      response after.2 = response w /\
      context (client (sentry after.2)) = ∅ /\
      last_event_id (sentry after.2) = AttrSet None
  | HeadersAbsent =>
      (exists e, after.1 = Raise e /\ isinstance e AttributeError = true) /\
      response after.2 = response w /\
      context (client (sentry after.2)) = context (client (sentry w)) /\
      last_event_id (sentry after.2) = AttrSet (Some id) /\
      clear_count (calls (client (sentry after.2)))
        = clear_count (calls (client (sentry w)))
  end.
Proof.
  intros Hid Hne capture after. subst capture after.
  rewrite captureException_run, Hid. simpl.
  split; [reflexivity|]. split; [reflexivity|].
  pose proof (event_id_truthy_Some id Hne) as Htruthy.
  destruct (resp_headers_attr (response w)) eqn:Hkind.
  - erewrite process_response_headers_absent;
      [| reflexivity
       | unfold header_assignment_fails; simpl response; now rewrite Htruthy, Hkind].
    simpl. split; [eexists; split; reflexivity|].
    repeat split. now rewrite clear_count_app, Nat.add_0_r.
  - erewrite process_response_set;
      [| reflexivity
       | unfold header_assignment_fails; simpl response; now rewrite Htruthy, Hkind].
    simpl. unfold with_event_header. rewrite Htruthy, Hkind. now repeat split.
  - erewrite process_response_set;
      [| reflexivity
       | unfold header_assignment_fails; simpl response; now rewrite Htruthy, Hkind].
    simpl. unfold with_event_header. rewrite Htruthy, Hkind. now repeat split.
Qed.

Lemma captureException_then_process_response_witness :
  let capture := Sentry.captureException "fatal" Samples.route_params
                   (Samples.world {[ "user" := VStr "ann" ]} AttrUnset) in
  let after := SentryMiddleware.process_response (SentryMiddleware.init None None)
                 Samples.request capture.2 in
  capture.1 = Ok (Some "e1") /\
  (exists e, after.1 = Raise e /\ isinstance e AttributeError = true) /\
  context (client (sentry after.2)) !! "user" = Some (VStr "ann") /\
  last_event_id (sentry after.2) = AttrSet (Some "e1").
Proof.
  destruct (captureException_then_process_response "fatal" Samples.route_params
              (SentryMiddleware.init None None) Samples.request
              (Samples.world {[ "user" := VStr "ann" ]} AttrUnset) "e1"
              eq_refl ltac:(discriminate))
    as (Hid & _ & Hraise & _ & Hctx & Hattr & _).
  split; [exact Hid|]. split; [exact Hraise|]. split; [|exact Hattr].
  rewrite Hctx. vm_compute. reflexivity.
Defined.

(** X7: [last_event_id] holds the result of the latest capture only.  After
    [captureException] and then [captureMessage] it is the id the transport
    gave for the message; when that id is [None] or empty, the after-request
    step completes and sets no header, whatever id the exception got. *)
Theorem last_capture_wins (level : string) (extra : gmap string pyval)
    (message : string) (self : MiddlewareObj) (req : Request) (w : World) :
  let w1 := (Sentry.captureException level extra w).2 in
  let w2 := (Sentry.captureMessage message w1).2 in
  let after := SentryMiddleware.process_response self req w2 in
  last_event_id (sentry w2)
    = AttrSet (transport (client (sentry w)) (CallCaptureMessage message)) /\
  (event_id_truthy (transport (client (sentry w)) (CallCaptureMessage message)) = false \/
   resp_headers_attr (response w) <> HeadersAbsent ->
   after.1 = Ok tt) /\
  (event_id_truthy (transport (client (sentry w)) (CallCaptureMessage message)) = false ->
   response after.2 = response w).
Proof.
  intros w1 w2 after. subst w1 w2 after.
  rewrite captureException_run, captureMessage_run. simpl.
  split; [reflexivity|]. split.
  - intros Hok. erewrite process_response_set; [reflexivity | reflexivity |].
    unfold header_assignment_fails. simpl response.
    destruct Hok as [-> | Hkind]; [reflexivity|].
    destruct (resp_headers_attr (response w)); [congruence | |];
      apply andb_false_r.
  - intros Hfalsy. erewrite process_response_set;
      [| reflexivity | unfold header_assignment_fails; now rewrite Hfalsy].
    simpl. unfold with_event_header. now rewrite Hfalsy.
Qed.

(** X8: the after-request step never changes a header other than
    [X-Sentry-ID], whether it completes or raises. *)
Theorem process_response_other_headers (self : MiddlewareObj) (req : Request)
    (w : World) (k : string) :
  k <> "X-Sentry-ID" ->
  resp_headers (response (SentryMiddleware.process_response self req w).2) !! k
    = resp_headers (response w) !! k.
Proof.
  intros Hk. destruct (last_event_id (sentry w)) as [|v] eqn:Hattr.
  - now rewrite (process_response_unset self req w Hattr).
  - destruct (header_assignment_fails v (response w)) eqn:Hfails.
    + now rewrite (process_response_headers_absent self req w v Hattr Hfails).
    + rewrite (process_response_set self req w v Hattr Hfails). simpl.
      unfold with_event_header. destruct (event_id_truthy v); [|reflexivity].
      destruct (resp_headers_attr (response w)); try reflexivity.
      simpl. now rewrite lookup_insert_ne by congruence.
Qed.

Lemma process_response_other_headers_witness :
  resp_headers (response (SentryMiddleware.process_response
      (SentryMiddleware.init None None) Samples.request
      (mk_World (mk_SentryObj None Samples.raven None None None (AttrSet (Some "e1")))
         (mk_Response {[ "Content-Type" := VStr "application/json" ]} HeadersLive)
         1)).2)
    !! "Content-Type"
  = Some (VStr "application/json").
Proof.
  rewrite (process_response_other_headers (SentryMiddleware.init None None)
             Samples.request _ "Content-Type") by discriminate.
  vm_compute. reflexivity.
Defined.

(** ** The before-request step, on every input *)

Ltac split_isinstance :=
  repeat match goal with
         | |- context [if isinstance ?e Exception_ then _ else _] =>
             destruct (isinstance e Exception_) eqn:?
         end.

Ltac process_request_cases self req w :=
  rewrite process_request_blocks, http_block_run;
  destruct (built_request_context self req) as [?rc|?e0];
  [ destruct (stored_request (context (client (sentry w)))) as [?d0|] |];
  split_isinstance;
  rewrite ?user_block_run;
  try match goal with
      | |- context [mw_user_context_loader self] =>
          destruct (mw_user_context_loader self) as [?g|];
          [ match goal with
            | |- context [match ?g ?r with Ok _ => _ | Raise _ => _ end] =>
                destruct (g r) as [?u|?e1]
            end
          |]
      end;
  split_isinstance.

Lemma process_request_response (self : MiddlewareObj) (req : Request) (w : World) :
  response (SentryMiddleware.process_request self req w).2 = response w.
Proof. process_request_cases self req w; reflexivity. Qed.

Lemma request_steps_response (w w' : World) :
  rtc request_step w w' -> response w' = response w.
Proof.
  induction 1 as [|w1 w2 w3 Hstep _ IH]; [reflexivity|].
  rewrite IH. destruct Hstep as [self req w0 | only_500 ex req params_ w0].
  - apply process_request_response.
  - rewrite error_handler_run.
    destruct (isinstance ex HTTPStatus); [reflexivity|].
    destruct (isinstance ex HTTPError); [|reflexivity].
    destruct (only_500 && (int_or (exc_code ex) 500 <? 500)); reflexivity.
Qed.

(** X9: what the after-request step does is decided by the value
    [last_event_id] had before the request and by the response, whatever
    before-request steps and error handlers ran in between and whatever they
    captured.  If that value is truthy and the response has no [headers],
    the step raises an [AttributeError] and leaves response and context
    store as they are; otherwise it completes, empties the context store,
    and the response is the one from before the request, with
    [X-Sentry-ID] written exactly when the value is truthy and
    [resp.headers] is the response's own mapping. *)
Theorem process_response_after_request_steps (self : MiddlewareObj) (req : Request)
    (w w' : World) (v : option string) :
  last_event_id (sentry w) = AttrSet v ->
  rtc request_step w w' ->
  let after := SentryMiddleware.process_response self req w' in
  if header_assignment_fails v (response w) then
    (exists e, after.1 = Raise e /\ isinstance e AttributeError = true) /\
    response after.2 = response w /\
    context (client (sentry after.2)) = context (client (sentry w'))
  else
    after.1 = Ok tt /\
    response after.2 = with_event_header v (response w) /\
    context (client (sentry after.2)) = ∅.
Proof.
  intros Hattr Hsteps after. subst after.
  pose proof (request_steps_last_event_id _ _ Hsteps) as Hkeep.
  rewrite Hattr in Hkeep.
  pose proof (request_steps_response _ _ Hsteps) as Hresp.
  destruct (header_assignment_fails v (response w)) eqn:Hfails.
  - rewrite <- Hresp in Hfails.
    rewrite (process_response_headers_absent self req w' v Hkeep Hfails). simpl.
    split; [eexists; split; reflexivity|]. now split.
  - rewrite <- Hresp in Hfails.
    rewrite (process_response_set self req w' v Hkeep Hfails). simpl.
    now rewrite Hresp.
Qed.

Lemma process_response_after_request_steps_witness :
  let w := Samples.world ∅ (AttrSet None) in
  let w1 := (Sentry.error_handler false Samples.boom Samples.request
               Samples.route_params w).2 in
  let after := SentryMiddleware.process_response (SentryMiddleware.init None None)
                 Samples.request w1 in
  capture_calls (calls (client (sentry w1)))
    = [CallCaptureException "fatal" Samples.route_params] /\
  after.1 = Ok tt /\
  response after.2 = response w.
Proof.
  intros w w1 after. split; [reflexivity|].
  destruct (process_response_after_request_steps (SentryMiddleware.init None None)
              Samples.request w w1 None eq_refl
              (rtc_once _ _ (step_error_handler false Samples.boom Samples.request
                               Samples.route_params w)))
    as (Hok & Hresp & _).
  split; [exact Hok | exact Hresp].
Defined.

Lemma clear_context_run (w : World) :
  Sentry.clear_context w = (Ok tt, cleared w).
Proof. reflexivity. Qed.

Lemma user_block_context (self : MiddlewareObj) (req : Request) (w : World) (k : string) :
  k <> "user" ->
  context (client (sentry (user_block self req w).2)) !! k
    = context (client (sentry w)) !! k.
Proof.
  intros Hk. rewrite user_block_run.
  destruct (mw_user_context_loader self) as [g|]; [|reflexivity].
  destruct (g req) as [u|e].
  - simpl. now rewrite lookup_insert_ne by congruence.
  - destruct (isinstance e Exception_); reflexivity.
Qed.

(** X10: nothing of an earlier request survives [clear_context]: the
    before-request step that follows it stores exactly the request context
    it built (no request context when the body loader raised) and leaves
    no key in the store besides [request] and [user]. *)
Theorem process_request_after_clear_context (self : MiddlewareObj) (req : Request)
    (w0 : World) :
  let w := (Sentry.clear_context w0).2 in
  let after := SentryMiddleware.process_request self req w in
  (Sentry.clear_context w0).1 = Ok tt /\
  context (client (sentry after.2)) !! "request"
    = match built_request_context self req with
      | Ok d => Some (VDict d)
      | Raise _ => None
      end /\
  (forall k, k <> "request" -> k <> "user" ->
     context (client (sentry after.2)) !! k = None).
Proof.
  intros w after. subst w after. rewrite clear_context_run. simpl.
  split; [reflexivity|].
  rewrite process_request_blocks, http_block_run.
  assert (stored_request (context (client (sentry (cleared w0)))) = Some ∅) as ->
    by reflexivity.
  destruct (built_request_context self req) as [d|e].
  - split.
    + rewrite user_block_context by discriminate. simpl.
      rewrite lookup_insert_eq. unfold dict_update.
      now rewrite (right_id_L ∅ (∪)).
    + intros k Hreq Huser. rewrite user_block_context by exact Huser. simpl.
      now rewrite lookup_insert_ne by congruence.
  - destruct (isinstance e Exception_).
    + split; [|intros k Hreq Huser]; now rewrite user_block_context.
    + now split.
Qed.

(** X11: when the before-request step completes, the user context is what
    the user loader returned; with no user loader, or with one that raised,
    the store keeps the user context it had before the request. *)
Theorem process_request_user_context (self : MiddlewareObj) (req : Request)
    (w : World) :
  (SentryMiddleware.process_request self req w).1 = Ok tt ->
  context (client (sentry (SentryMiddleware.process_request self req w).2)) !! "user"
    = match mw_user_context_loader self with
      | None => context (client (sentry w)) !! "user"
      | Some g =>
          match g req with
          | Ok u => Some u
          | Raise _ => context (client (sentry w)) !! "user"
          end
      end.
Proof.
  process_request_cases self req w; simpl;
    solve [ discriminate
          | intros _; reflexivity
          | intros _; now rewrite lookup_insert_eq
          | intros _; now rewrite lookup_insert_ne by discriminate ].
Qed.

Lemma process_request_user_context_witness :
  let self := SentryMiddleware.init (Some Samples.failing) None in
  let w := Samples.world {[ "user" := VDict {[ "id" := VInt 1 ]} ]} AttrUnset in
  let after := SentryMiddleware.process_request self Samples.request w in
  after.1 = Ok tt /\
  context (client (sentry after.2)) !! "user" = Some (VDict {[ "id" := VInt 1 ]}).
Proof.
  intros self w after.
  assert (after.1 = Ok tt) as Hok by (vm_compute; reflexivity).
  split; [exact Hok|].
  subst after. rewrite (process_request_user_context self Samples.request w Hok).
  vm_compute. reflexivity.
Defined.

(** X12: two [http_context] calls in a row both succeed on a store whose
    http sub-mapping is [d0], and per key the later call wins: the stored
    mapping has the value of the second call, else that of the first, else
    the one [d0] had. *)
Theorem http_context_last_write_wins (d1 d2 d0 : gmap string pyval) (w : World) :
  stored_request (context (client (sentry w))) = Some d0 ->
  exists w2 d,
    (Sentry.http_context d1;; Sentry.http_context d2) w = (Ok tt, w2) /\
    context (client (sentry w2)) !! "request" = Some (VDict d) /\
    forall k,
      d !! k = match d2 !! k with
               | Some v => Some v
               | None => match d1 !! k with
                         | Some v => Some v
                         | None => d0 !! k
                         end
               end.
Proof.
  intros Hstored.
  pose proof (http_context_merge d1 d0 w Hstored) as H1.
  pose proof (http_context_merge d2 _ _
                (stored_request_with_request (dict_update d0 d1) w)) as H2.
  eexists _, _. split.
  { unfold mbind, M_bind, bind. rewrite H1. exact H2. }
  split; [simpl; apply lookup_insert_eq|].
  intros k. unfold dict_update.
  destruct (d2 !! k) as [v|] eqn:Hk2; [now apply lookup_union_Some_l|].
  rewrite lookup_union_r by exact Hk2.
  destruct (d1 !! k) as [v|] eqn:Hk1; [now apply lookup_union_Some_l|].
  now rewrite lookup_union_r.
Qed.

Lemma http_context_last_write_wins_witness :
  exists w2 d,
    (Sentry.http_context {[ "a" := VInt 1 ]};; Sentry.http_context {[ "a" := VInt 2 ]})
      (Samples.world ∅ AttrUnset) = (Ok tt, w2) /\
    context (client (sentry w2)) !! "request" = Some (VDict d) /\
    d !! "a" = Some (VInt 2).
Proof.
  assert (stored_request (context (client (sentry (Samples.world ∅ AttrUnset))))
          = Some ∅) as Hstored by reflexivity.
  destruct (http_context_last_write_wins {[ "a" := VInt 1 ]} {[ "a" := VInt 2 ]} ∅
              (Samples.world ∅ AttrUnset) Hstored)
    as (w2 & d & Hrun & Hreq & Hkeys).
  exists w2, d. split; [exact Hrun|]. split; [exact Hreq|].
  rewrite Hkeys. vm_compute. reflexivity.
Defined.

(** X13: when the [request] entry of the context store is not a mapping,
    [http_context] raises an [AttributeError] before it reaches the raven
    client: the Sentry object and the response are as before.  Inside the
    before-request step that error is caught: the step logs one message,
    leaves the entry as it was and lets no [Exception] escape. *)
Theorem http_context_not_a_mapping (data : gmap string pyval) (self : MiddlewareObj)
    (req : Request) (w : World) :
  stored_request (context (client (sentry w))) = None ->
  (exists e,
     Sentry.http_context data w = (Raise e, bumped w) /\
     isinstance e AttributeError = true /\
     sentry (bumped w) = sentry w /\
     response (bumped w) = response w) /\
  (forall d, built_request_context self req = Ok d ->
     let after := SentryMiddleware.process_request self req w in
     context (client (sentry after.2)) !! "request"
       = context (client (sentry w)) !! "request" /\
     http_context_calls (calls (client (sentry after.2)))
       = http_context_calls (calls (client (sentry w))) /\
     (exists message,
        In (CallLoggerException message) (calls (client (sentry after.2)))) /\
     (forall e, after.1 = Raise e -> isinstance e Exception_ = false)).
Proof.
  intros Hstored. split.
  { eexists. split; [apply (http_context_no_mapping data w Hstored)|].
    now repeat split. }
  intros d Hbuilt after. subst after.
  rewrite process_request_blocks, http_block_run, Hbuilt, Hstored.
  destruct (user_block_frame self req
              (logged "object has no attribute 'update'" (bumped w)))
    as (Hcalls & Hctx & Hlog).
  split; [exact Hctx|]. split.
  { rewrite Hcalls. simpl. unfold http_context_calls.
    now rewrite List.filter_app, app_nil_r. }
  split.
  { eexists. apply Hlog. simpl. apply in_or_app. right. now left. }
  intros e. apply user_block_raise.
Qed.

Lemma http_context_not_a_mapping_witness :
  let w := Samples.world {[ "request" := VStr "GET /" ]} AttrUnset in
  let after := SentryMiddleware.process_request (SentryMiddleware.init None None)
                 Samples.request w in
  stored_request (context (client (sentry w))) = None /\
  (exists e, Sentry.http_context ∅ w = (Raise e, bumped w) /\
             isinstance e AttributeError = true) /\
  context (client (sentry after.2)) !! "request" = Some (VStr "GET /").
Proof.
  intros w after.
  assert (stored_request (context (client (sentry w))) = None) as Hstored
    by (vm_compute; reflexivity).
  destruct (http_context_not_a_mapping ∅ (SentryMiddleware.init None None)
              Samples.request w Hstored) as ((e & Hrun & Hcls & _) & Hstep).
  split; [exact Hstored|]. split; [exists e; now split|].
  destruct (Hstep _ eq_refl) as (Hctx & _).
  subst after. rewrite Hctx. vm_compute. reflexivity.
Defined.

(** X14: the before-request step writes only the [request] and [user]
    entries of the context store: the response, [last_event_id] and every
    other entry are as before, and no capture call and no clearing of the
    store reaches the raven client. *)
Theorem process_request_frame (self : MiddlewareObj) (req : Request) (w : World) :
  let w' := (SentryMiddleware.process_request self req w).2 in
  response w' = response w /\
  last_event_id (sentry w') = last_event_id (sentry w) /\
  (forall k, k <> "request" -> k <> "user" ->
     context (client (sentry w')) !! k = context (client (sentry w)) !! k) /\
  capture_calls (calls (client (sentry w'))) = capture_calls (calls (client (sentry w))) /\
  clear_count (calls (client (sentry w'))) = clear_count (calls (client (sentry w))).
Proof.
  process_request_cases self req w; simpl;
    unfold capture_calls, clear_count;
    rewrite ?List.filter_app; simpl; rewrite ?app_nil_r;
    (repeat split; try reflexivity);
    intros k Hreq Huser; now rewrite ?lookup_insert_ne by congruence.
Qed.

(** X15: an exception of the body loader that does not derive from
    [Exception] is not caught: the before-request step raises it at once,
    with the world untouched, so nothing is logged, no context is stored
    and the user loader is not run. *)
Theorem process_request_base_exception (self : MiddlewareObj) (req : Request)
    (w : World) (f : loader) (e : exc) :
  mw_body_context_loader self = Some f ->
  f req = Raise e ->
  isinstance e Exception_ = false ->
  SentryMiddleware.process_request self req w = (Raise e, w).
Proof.
  intros Hloader Hraise Hcls.
  assert (built_request_context self req = Raise e) as Hbuilt
    by (unfold built_request_context; now rewrite Hloader, Hraise).
  now rewrite process_request_blocks, http_block_run, Hbuilt, Hcls.
Qed.

Lemma process_request_base_exception_witness :
  SentryMiddleware.process_request
      (SentryMiddleware.init (Some Samples.U) (Some MoreSamples.interrupted))
      Samples.request (Samples.world ∅ AttrUnset)
    = (Raise MoreSamples.keyboard_interrupt, Samples.world ∅ AttrUnset).
Proof.
  apply (process_request_base_exception _ _ _ MoreSamples.interrupted);
    reflexivity.
Defined.

Lemma process_request_cleared_request (self : MiddlewareObj) (req : Request)
    (w0 : World) :
  context (client (sentry
      (SentryMiddleware.process_request self req (cleared w0)).2)) !! "request"
    = match built_request_context self req with
      | Ok d => Some (VDict d)
      | Raise _ => None
      end.
Proof.
  rewrite process_request_blocks, http_block_run.
  assert (stored_request (context (client (sentry (cleared w0)))) = Some ∅) as ->
    by reflexivity.
  destruct (built_request_context self req) as [d|e].
  - rewrite user_block_context by discriminate. simpl.
    rewrite lookup_insert_eq. unfold dict_update.
    now rewrite (right_id_L ∅ (∪)).
  - destruct (isinstance e Exception_); [|reflexivity].
    now rewrite user_block_context.
Qed.

Lemma get_request_context_dom (req : Request) :
  dom (SentryMiddleware.get_request_context req) = request_context_keys.
Proof.
  unfold SentryMiddleware.get_request_context, request_context_keys. simpl.
  rewrite !dom_insert_L, dom_empty_L. set_solver.
Qed.

(** X16: the http context that a before-request step stores after
    [clear_context] has the seven keys url, query_string, params, headers,
    route, method and env, and the key body besides exactly when the
    middleware has a body loader. *)
Theorem process_request_stored_keys (self : MiddlewareObj) (req : Request)
    (w0 : World) (d : gmap string pyval) :
  context (client (sentry
      (SentryMiddleware.process_request self req (Sentry.clear_context w0).2).2))
    !! "request" = Some (VDict d) ->
  dom d = request_context_keys ∪
          match mw_body_context_loader self with
          | Some _ => {["body"]}
          | None => ∅
          end.
Proof.
  rewrite clear_context_run. simpl. rewrite process_request_cleared_request.
  unfold built_request_context.
  destruct (mw_body_context_loader self) as [f|].
  - destruct (f req) as [body|e]; [|discriminate].
    intros [= <-]. rewrite dom_insert_L, get_request_context_dom. set_solver.
  - intros [= <-]. rewrite get_request_context_dom. set_solver.
Qed.

Lemma process_request_stored_keys_witness :
  exists d,
    context (client (sentry
        (SentryMiddleware.process_request (SentryMiddleware.init None (Some Samples.B))
           Samples.request
           (Sentry.clear_context (Samples.world ∅ AttrUnset)).2).2))
      !! "request" = Some (VDict d) /\
    dom d = request_context_keys ∪ {["body"]}.
Proof.
  eexists. assert (Hstored := process_request_cleared_request
                     (SentryMiddleware.init None (Some Samples.B)) Samples.request
                     (Samples.world ∅ AttrUnset)).
  simpl in Hstored. split; [exact Hstored|].
  apply (process_request_stored_keys (SentryMiddleware.init None (Some Samples.B))
           Samples.request (Samples.world ∅ AttrUnset)).
  exact Hstored.
Defined.

(** ** Construction, and one request after another *)

(** X17: [Sentry.__init__] raises a [TypeError] for a truthy object that
    is not a raven [Client], before it calls anything.  A falsy object that
    is not a [Client] is treated like a missing one: [client_cls(dsn,
    **options)] is called, its result is the client and its exception
    propagates.  A [Client] instance is used as given, without a call of
    [client_cls].  The logging setup runs only with [handle_logging], on the
    client just chosen, and its exception propagates; an empty list of
    exclusions counts as none.  On success [dsn] and the two loaders are
    stored under their own names and [last_event_id] is unassigned. *)
Theorem init_client_argument (setup_logging : Sentry.logging_setup)
    (client_cls : Sentry.client_class)
    (dsn_ : option string) (handle_logging : bool)
    (logging_exclusions : option (list string)) (level : Z)
    (user_loader body_loader : option loader)
    (options : gmap string pyval) (oid : nat) :
  let init_with c := Sentry.init setup_logging c client_cls dsn_ handle_logging
                       logging_exclusions level user_loader body_loader options oid in
  (exists e, init_with (Sentry.OtherObject true) = Raise e /\
             isinstance e TypeError = true) /\
  init_with (Sentry.OtherObject false) = init_with Sentry.NoClient /\
  (forall e, client_cls dsn_ options = Raise e -> init_with Sentry.NoClient = Raise e) /\
  (forall s, init_with Sentry.NoClient = Ok s ->
     client_cls dsn_ options = Ok (client s)) /\
  (forall c cls',
     init_with (Sentry.ClientInstance c)
       = Sentry.init setup_logging (Sentry.ClientInstance c) cls' dsn_ handle_logging
           logging_exclusions level user_loader body_loader options oid) /\
  (forall c s, init_with (Sentry.ClientInstance c) = Ok s -> client s = c) /\
  (forall c s, init_with c = Ok s ->
     dsn s = dsn_ /\ body_context_loader s = body_loader /\
     user_context_loader s = user_loader /\ last_event_id s = AttrUnset /\
     if handle_logging
     then exists exclude,
            setup_logging (client s) level exclude = Ok tt /\
            logging_handler s = Some (level, exclude) /\
            (logging_exclusions = None \/ logging_exclusions = Some [] ->
             exclude = None) /\
            (forall x l, logging_exclusions = Some (x :: l) -> exclude = Some (x :: l))
     else logging_handler s = None) /\
  (forall c e, handle_logging = true ->
     setup_logging c level
       (match logging_exclusions with Some (x :: l) => Some (x :: l) | _ => None end)
       = Raise e ->
     init_with (Sentry.ClientInstance c) = Raise e).
Proof.
  intros init_with. subst init_with. unfold Sentry.init, Sentry.configure_logging.
  cbv zeta.
  set (exclude := match logging_exclusions with
                  | Some (x :: l) => Some (x :: l)
                  | _ => None
                  end).
  assert ((logging_exclusions = None \/ logging_exclusions = Some [] -> exclude = None) /\
          (forall x l, logging_exclusions = Some (x :: l) -> exclude = Some (x :: l)))
    as Hexclude.
  { subst exclude. split; [now intros [-> | ->] | now intros x l ->]. }
  assert (forall c0 s,
    match
      (if handle_logging
       then
         match setup_logging c0 level exclude with
         | Ok _ =>
             Ok (mk_SentryObj dsn_ c0 (Some (level, exclude)) None None AttrUnset)
         | Raise e => Raise e
         end
       else Ok (mk_SentryObj dsn_ c0 None None None AttrUnset))
    with
    | Ok self =>
        Ok (mk_SentryObj (dsn self) (client self) (logging_handler self)
              body_loader user_loader (last_event_id self))
    | Raise e => Raise e
    end = Ok s ->
    client s = c0 /\
    dsn s = dsn_ /\ body_context_loader s = body_loader /\
    user_context_loader s = user_loader /\ last_event_id s = AttrUnset /\
    (if handle_logging
     then exists exclude0,
            setup_logging (client s) level exclude0 = Ok tt /\
            logging_handler s = Some (level, exclude0) /\
            (logging_exclusions = None \/ logging_exclusions = Some [] ->
             exclude0 = None) /\
            (forall x l, logging_exclusions = Some (x :: l) ->
               exclude0 = Some (x :: l))
     else logging_handler s = None)) as Hbody.
  { intros c0 s. destruct handle_logging.
    - destruct (setup_logging c0 level exclude) as [[]|e] eqn:Hsetup;
        simpl; intros [= <-]. simpl. repeat split.
      exists exclude. split; [exact Hsetup|]. split; [reflexivity | exact Hexclude].
    - simpl. intros [= <-]. now repeat split. }
  split; [eexists; split; reflexivity|].
  split; [reflexivity|].
  split; [intros e ->; reflexivity|].
  split.
  { intros s. destruct (client_cls dsn_ options) as [c|e]; [|by intros [=]].
    intros Hinit. apply Hbody in Hinit as [<- _]. reflexivity. }
  split; [reflexivity|].
  split.
  { intros c s Hinit. now apply Hbody in Hinit as [<- _]. }
  split.
  { intros c s. destruct c as [|c0|[]]; try (by intros [=]).
    - destruct (client_cls dsn_ options) as [c0|e]; [|by intros [=]].
      intros Hinit. now apply Hbody in Hinit as [_ Hrest].
    - intros Hinit. now apply Hbody in Hinit as [_ Hrest].
    - destruct (client_cls dsn_ options) as [c0|e]; [|by intros [=]].
      intros Hinit. now apply Hbody in Hinit as [_ Hrest]. }
  intros c e -> Hsetup. simpl. now rewrite Hsetup.
Qed.

Lemma init_client_argument_witness :
  Sentry.init Samples.setup_logging (Sentry.OtherObject false) Samples.rejecting_cls
    (Some "htp://example.com/1") true (Some []) 0 None None ∅ 0%nat
  = Raise Samples.invalid_dsn.
Proof.
  destruct (init_client_argument Samples.setup_logging Samples.rejecting_cls
              (Some "htp://example.com/1") true (Some []) 0 None None ∅ 0%nat)
    as (_ & Hfalsy & Hpropagates & _).
  rewrite Hfalsy. now apply Hpropagates.
Defined.

(** X18: once an after-request step has completed, the next request starts
    from nothing: its before-request step stores exactly the request context
    it built (none when its body loader raised), the store has no other
    entry than [request] and [user], and when the step completes the user
    entry is what the user loader returned, or absent. *)
Theorem process_request_after_process_response (self self' : MiddlewareObj)
    (req req' : Request) (w : World) :
  (SentryMiddleware.process_response self req w).1 = Ok tt ->
  let w1 := (SentryMiddleware.process_response self req w).2 in
  let after := SentryMiddleware.process_request self' req' w1 in
  context (client (sentry after.2)) !! "request"
    = match built_request_context self' req' with
      | Ok d => Some (VDict d)
      | Raise _ => None
      end /\
  (forall k, k <> "request" -> k <> "user" ->
     context (client (sentry after.2)) !! k = None) /\
  (after.1 = Ok tt ->
   context (client (sentry after.2)) !! "user"
     = match mw_user_context_loader self' with
       | Some g => match g req' with
                   | Ok u => Some u
                   | Raise _ => None
                   end
       | None => None
       end).
Proof.
  destruct (last_event_id (sentry w)) as [|v] eqn:Hattr;
    [now rewrite (process_response_unset self req w Hattr)|].
  destruct (header_assignment_fails v (response w)) eqn:Hfails;
    [now rewrite (process_response_headers_absent self req w v Hattr Hfails)|].
  rewrite (process_response_set self req w v Hattr Hfails). simpl.
  intros _.
  split; [apply process_request_cleared_request|].
  split.
  - intros k Hreq Huser.
    process_request_cases self' req' (cleared (set_response (with_event_header v) w));
      simpl; now rewrite ?lookup_insert_ne by congruence.
  - process_request_cases self' req' (cleared (set_response (with_event_header v) w));
      simpl;
      solve [ discriminate
            | intros _; reflexivity
            | intros _; now rewrite lookup_insert_eq
            | intros _; now rewrite lookup_insert_ne by discriminate ].
Qed.

Lemma process_request_after_process_response_witness :
  let w := Samples.world {[ "user" := VDict {[ "id" := VInt 1 ]} ]} (AttrSet None) in
  let first := SentryMiddleware.process_response (SentryMiddleware.init None None)
                 Samples.request w in
  let after := SentryMiddleware.process_request
                 (SentryMiddleware.init (Some Samples.failing) None)
                 Samples.request first.2 in
  first.1 = Ok tt /\
  after.1 = Ok tt /\
  context (client (sentry after.2)) !! "user" = None.
Proof.
  intros w first after.
  assert (first.1 = Ok tt) as Hfirst by reflexivity.
  assert (after.1 = Ok tt) as Hok by (vm_compute; reflexivity).
  split; [exact Hfirst|]. split; [exact Hok|].
  destruct (process_request_after_process_response (SentryMiddleware.init None None)
              (SentryMiddleware.init (Some Samples.failing) None)
              Samples.request Samples.request w Hfirst)
    as (_ & _ & Huser).
  exact (Huser Hok).
Defined.
